(** * The MCP wallet server: tool dispatch and pending confirmations

    A shallow embedding of the class [McpServer] of the wallet package (its
    constructor, [start], [registerTools], the two request handlers set up
    by [setupRequestHandlers], [confirmTransaction] and [rejectTransaction])
    together with the pieces of JavaScript it leans on: JSON text, property
    access, string conversion. *)

From Stdlib Require Import String Ascii List ZArith NArith Bool Lia.
From stdpp Require Import base option gmap strings.
Import ListNotations.

Local Open Scope string_scope.
#[local] Set Warnings "-register-all".
#[local] Arguments String.append !s1 s2 : simpl nomatch.

(** ** JavaScript values

    What travels through the server as [any]: request parameters, parsed
    error payloads, tool results.  An object is the list of its own
    properties in the order they were written; a later binding of a key
    overrides an earlier one on lookup (what [JSON.parse] does with a
    repeated key).  A number is kept as its JSON literal: the server does no
    arithmetic on them.  Strings are byte strings holding UTF-8. *)

Inductive JsValue : Type :=
| VUndefined
| VNull
| VBool (b : bool)
| VNum (literal : string)
| VStr (s : string)
| VArr (elements : list JsValue)
| VObj (members : list (string * JsValue)).

Module Js.

(** [obj[key]] on the member list: the last binding wins. *)
Fixpoint own_property (members : list (string * JsValue)) (key : string)
  : option JsValue :=
  match members with
  | [] => None
  | (k, v) :: rest =>
      match own_property rest key with
      | Some w => Some w
      | None => if String.eqb k key then Some v else None
      end
  end.

(** [v.key] for a key that no built-in prototype defines (the server reads
    [to], [token], [decimals] and [message]).  [None] is the TypeError of
    reading a property of [undefined] or [null]; primitives and arrays
    answer [undefined]. *)
Definition get (v : JsValue) (key : string) : option JsValue :=
  match v with
  | VUndefined | VNull => None
  | VObj members =>
      Some (match own_property members key with
            | Some w => w
            | None => VUndefined
            end)
  | _ => Some VUndefined
  end.

(** Whether [String(v)], or [v] inside a template literal, yields a string
    rather than a TypeError.  A plain object converts through
    [Object.prototype.toString] unless it has an own [toString] property;
    such a property holds data here, never a function, and then neither it
    nor [valueOf] produces a primitive.  An array joins its elements,
    converting each one that is not [null] or [undefined]. *)
Fixpoint stringifiable (v : JsValue) : bool :=
  match v with
  | VArr elements =>
      forallb (fun x => match x with
                        | VUndefined | VNull => true
                        | _ => stringifiable x
                        end) elements
  | VObj members =>
      match own_property members "toString" with
      | Some _ => false
      | None => true
      end
  | _ => true
  end.

End Js.

(** ** JSON text *)

Module JSON.

Definition dquote : ascii := "034"%char.
Definition backslash : ascii := "092"%char.

Definition hex_digit (n : N) : ascii :=
  ascii_of_N (if (n <? 10)%N then 48 + n else 87 + n)%N.

(** One character of a string literal as [JSON.stringify] writes it. *)
Definition escape_char (c : ascii) : string :=
  let n := N_of_ascii c in
  if Ascii.eqb c dquote then String backslash (String dquote "")
  else if Ascii.eqb c backslash then String backslash (String backslash "")
  else if (n =? 8)%N then String backslash "b"
  else if (n =? 9)%N then String backslash "t"
  else if (n =? 10)%N then String backslash "n"
  else if (n =? 12)%N then String backslash "f"
  else if (n =? 13)%N then String backslash "r"
  else if (n <? 32)%N then
    String backslash
      (String "u" (String "0" (String "0"
         (String (hex_digit (n / 16)) (String (hex_digit (n mod 16)) "")))))
  else String c "".

Fixpoint escape (s : string) : string :=
  match s with
  | EmptyString => ""
  | String c rest => escape_char c +:+ escape rest
  end.

Definition quote (s : string) : string :=
  String dquote (escape s +:+ String dquote "").

Fixpoint join_comma (parts : list string) : string :=
  match parts with
  | [] => ""
  | [p] => p
  | p :: rest => p +:+ "," +:+ join_comma rest
  end.

(** [JSON.stringify(v)].  Inside an array [undefined] is written [null],
    inside an object the member is left out.  The server only serialises
    object literals; for [undefined] itself, where JavaScript returns
    [undefined] and no text, the text is empty. *)
Fixpoint stringify (v : JsValue) : string :=
  match v with
  | VUndefined => ""
  | VNull => "null"
  | VBool true => "true"
  | VBool false => "false"
  | VNum literal => literal
  | VStr s => quote s
  | VArr elements =>
      "[" +:+ join_comma
                (map (fun x => match x with
                               | VUndefined => "null"
                               | _ => stringify x
                               end) elements) +:+ "]"
  | VObj members =>
      "{" +:+ join_comma
                (flat_map (fun kv => match kv with
                                     | (_, VUndefined) => []
                                     | (k, x) => [quote k +:+ ":" +:+ stringify x]
                                     end) members) +:+ "}"
  end.

(** *** Reading JSON text *)

Definition is_ws (c : ascii) : bool :=
  let n := N_of_ascii c in
  ((n =? 32) || (n =? 9) || (n =? 10) || (n =? 13))%N.

Fixpoint skip_ws (s : string) : string :=
  match s with
  | String c rest => if is_ws c then skip_ws rest else s
  | EmptyString => ""
  end.

Definition is_digit (c : ascii) : bool :=
  let n := N_of_ascii c in ((48 <=? n) && (n <=? 57))%N.

Definition hex_value (c : ascii) : option N :=
  let n := N_of_ascii c in
  if ((48 <=? n) && (n <=? 57))%N then Some (n - 48)%N
  else if ((97 <=? n) && (n <=? 102))%N then Some (n - 87)%N
  else if ((65 <=? n) && (n <=? 70))%N then Some (n - 55)%N
  else None.

Definition hex4 (a b c d : ascii) : option N :=
  match hex_value a, hex_value b, hex_value c, hex_value d with
  | Some x, Some y, Some z, Some w => Some (((x * 16 + y) * 16 + z) * 16 + w)%N
  | _, _, _, _ => None
  end.

(** The characters of a string literal, before they are put together: a
    byte taken as it stands, or a UTF-16 code unit written [\uXXXX]. *)
Inductive piece : Type :=
| Raw (c : ascii)
| Unit (n : N).

Definition simple_escape (e : ascii) : option ascii :=
  if Ascii.eqb e dquote then Some dquote
  else if Ascii.eqb e backslash then Some backslash
  else if Ascii.eqb e "/" then Some "/"%char
  else if Ascii.eqb e "b" then Some "008"%char
  else if Ascii.eqb e "f" then Some "012"%char
  else if Ascii.eqb e "n" then Some "010"%char
  else if Ascii.eqb e "r" then Some "013"%char
  else if Ascii.eqb e "t" then Some "009"%char
  else None.

(** The body of a string literal, after its opening quote, up to and
    including the closing quote. *)
Fixpoint string_pieces (s : string) : option (list piece * string) :=
  match s with
  | EmptyString => None
  | String c rest =>
      if Ascii.eqb c dquote then Some ([], rest)
      else if Ascii.eqb c backslash then
        match rest with
        | String e rest1 =>
            if Ascii.eqb e "u" then
              match rest1 with
              | String h1 (String h2 (String h3 (String h4 rest2))) =>
                  match hex4 h1 h2 h3 h4, string_pieces rest2 with
                  | Some n, Some (ps, r) => Some (Unit n :: ps, r)
                  | _, _ => None
                  end
              | _ => None
              end
            else
              match simple_escape e, string_pieces rest1 with
              | Some ch, Some (ps, r) => Some (Raw ch :: ps, r)
              | _, _ => None
              end
        | EmptyString => None
        end
      else if (N_of_ascii c <? 32)%N then None
      else
        match string_pieces rest with
        | Some (ps, r) => Some (Raw c :: ps, r)
        | None => None
        end
  end.

(** UTF-8 of a code point; a lone surrogate gets the three bytes its value
    would. *)
Definition utf8 (n : N) : string :=
  if (n <? 128)%N then String (ascii_of_N n) ""
  else if (n <? 2048)%N then
    String (ascii_of_N (192 + n / 64))
      (String (ascii_of_N (128 + n mod 64)) "")
  else if (n <? 65536)%N then
    String (ascii_of_N (224 + n / 4096))
      (String (ascii_of_N (128 + (n / 64) mod 64))
         (String (ascii_of_N (128 + n mod 64)) ""))
  else
    String (ascii_of_N (240 + n / 262144))
      (String (ascii_of_N (128 + (n / 4096) mod 64))
         (String (ascii_of_N (128 + (n / 64) mod 64))
            (String (ascii_of_N (128 + n mod 64)) ""))).

Definition is_high_surrogate (n : N) : bool := ((55296 <=? n) && (n <? 56320))%N.
Definition is_low_surrogate (n : N) : bool := ((56320 <=? n) && (n <? 57344))%N.

Fixpoint assemble (ps : list piece) : string :=
  match ps with
  | [] => ""
  | Raw c :: rest => String c (assemble rest)
  | Unit hi :: rest =>
      match rest with
      | Unit lo :: rest' =>
          if is_high_surrogate hi && is_low_surrogate lo
          then utf8 (65536 + (hi - 55296) * 1024 + (lo - 56320))%N +:+ assemble rest'
          else utf8 hi +:+ assemble rest
      | _ => utf8 hi +:+ assemble rest
      end
  end.

Definition string_body (s : string) : option (string * string) :=
  match string_pieces s with
  | Some (ps, rest) => Some (assemble ps, rest)
  | None => None
  end.

Fixpoint span_digits (s : string) : string * string :=
  match s with
  | String c rest =>
      if is_digit c
      then let '(ds, r) := span_digits rest in (String c ds, r)
      else ("", s)
  | EmptyString => ("", "")
  end.

(** A number literal: an optional minus sign; then a single 0, or a digit
    from 1 to 9 followed by any digits; then optionally a point and one or
    more digits; then optionally e or E, an optional sign and one or more
    digits.  It answers the literal and the rest of the text. *)
Definition number (s : string) : option (string * string) :=
  let '(sign, s1) :=
    match s with
    | String "-" r => ("-", r)
    | _ => ("", s)
    end in
  let int_part :=
    match s1 with
    | String "0" r => Some ("0", r)
    | String c _ =>
        if is_digit c then Some (span_digits s1) else None
    | EmptyString => None
    end in
  match int_part with
  | None => None
  | Some (int, s2) =>
      let frac_part :=
        match s2 with
        | String "." r =>
            match span_digits r with
            | (EmptyString, _) => None
            | (ds, r') => Some ("." +:+ ds, r')
            end
        | _ => Some ("", s2)
        end in
      match frac_part with
      | None => None
      | Some (frac, s3) =>
          let exp_part :=
            match s3 with
            | String e r =>
                if Ascii.eqb e "e" || Ascii.eqb e "E" then
                  let '(esign, r1) :=
                    match r with
                    | String "+" r' => ("+", r')
                    | String "-" r' => ("-", r')
                    | _ => ("", r)
                    end in
                  match span_digits r1 with
                  | (EmptyString, _) => None
                  | (ds, r2) => Some (String e esign +:+ ds, r2)
                  end
                else Some ("", s3)
            | EmptyString => Some ("", s3)
            end in
          match exp_part with
          | None => None
          | Some (ex, s4) => Some (sign +:+ int +:+ frac +:+ ex, s4)
          end
      end
  end.

Fixpoint strip_prefix (p s : string) : option string :=
  match p with
  | EmptyString => Some s
  | String a p' =>
      match s with
      | String b s' => if Ascii.eqb a b then strip_prefix p' s' else None
      | EmptyString => None
      end
  end.

(** A value, the elements of an array after its first, the members of an
    object after its first.  The fuel bounds the number of values and
    members read; a text never holds more of them than characters. *)
Fixpoint value (fuel : nat) (s : string) : option (JsValue * string) :=
  match fuel with
  | O => None
  | S fuel' =>
      match skip_ws s with
      | EmptyString => None
      | String c rest =>
          if Ascii.eqb c "{" then
            match skip_ws rest with
            | String "}" r => Some (VObj [], r)
            | _ =>
                match members fuel' rest with
                | Some (ms, r) => Some (VObj ms, r)
                | None => None
                end
            end
          else if Ascii.eqb c "[" then
            match skip_ws rest with
            | String "]" r => Some (VArr [], r)
            | _ =>
                match elements fuel' rest with
                | Some (xs, r) => Some (VArr xs, r)
                | None => None
                end
            end
          else if Ascii.eqb c dquote then
            match string_body rest with
            | Some (str, r) => Some (VStr str, r)
            | None => None
            end
          else if Ascii.eqb c "t" then
            match strip_prefix "rue" rest with
            | Some r => Some (VBool true, r)
            | None => None
            end
          else if Ascii.eqb c "f" then
            match strip_prefix "alse" rest with
            | Some r => Some (VBool false, r)
            | None => None
            end
          else if Ascii.eqb c "n" then
            match strip_prefix "ull" rest with
            | Some r => Some (VNull, r)
            | None => None
            end
          else
            match number (String c rest) with
            | Some (literal, r) => Some (VNum literal, r)
            | None => None
            end
      end
  end
with elements (fuel : nat) (s : string) : option (list JsValue * string) :=
  match fuel with
  | O => None
  | S fuel' =>
      match value fuel' s with
      | None => None
      | Some (x, r) =>
          match skip_ws r with
          | String c r' =>
              if Ascii.eqb c "]" then Some ([x], r')
              else if Ascii.eqb c "," then
                match elements fuel' r' with
                | Some (xs, r'') => Some (x :: xs, r'')
                | None => None
                end
              else None
          | EmptyString => None
          end
      end
  end
with members (fuel : nat) (s : string)
  : option (list (string * JsValue) * string) :=
  match fuel with
  | O => None
  | S fuel' =>
      match skip_ws s with
      | String q s1 =>
          if Ascii.eqb q dquote then
            match string_body s1 with
            | None => None
            | Some (key, s2) =>
                match skip_ws s2 with
                | String colon s3 =>
                    if Ascii.eqb colon ":" then
                      match value fuel' s3 with
                      | None => None
                      | Some (x, r) =>
                          match skip_ws r with
                          | String c r' =>
                              if Ascii.eqb c "}" then Some ([(key, x)], r')
                              else if Ascii.eqb c "," then
                                match members fuel' r' with
                                | Some (ms, r'') => Some ((key, x) :: ms, r'')
                                | None => None
                                end
                              else None
                          | EmptyString => None
                          end
                      end
                    else None
                | EmptyString => None
                end
            end
          else None
      | EmptyString => None
      end
  end.

(** [JSON.parse(text)]; [None] is the SyntaxError. *)
Definition parse (text : string) : option JsValue :=
  match value (S (String.length text)) text with
  | Some (v, rest) =>
      match skip_ws rest with
      | EmptyString => Some v
      | _ => None
      end
  | None => None
  end.

End JSON.

(** ** The wallet

    [EvmMcpWallet] is the capability the server calls.  Each of its methods
    either answers a string or fails with an [Error] (an ethers error, a
    TypeError of the engine, its own [throw new Error]); what it answers may
    depend on everything it was asked before. *)

Module Wallet.

Inductive Call : Type :=
| getAddress
| getBalance
| signTransaction (options : JsValue)
| getTokenBalance (tokenAddress decimals : JsValue)
| sendTransaction (options : JsValue).

Inductive Settled : Type :=
| Resolved (value : string)
| Rejected (message : string).

(** A wallet: from the calls made so far and the call made now to its
    outcome. *)
Definition t : Type := list Call -> Call -> Settled.

End Wallet.

(** ** Configuration, tools and the pending-confirmation map *)

Inductive OperationType : Type := read | prepare | info | transaction.

Definition same_operation (a b : OperationType) : bool :=
  match a, b with
  | read, read | prepare, prepare | info, info | transaction, transaction => true
  | _, _ => false
  end.

(** A property of an options object.  TypeScript's [field?: T] admits an
    object without the property, an object holding [undefined] under it,
    and an object holding a [T]; an object spread tells the first from the
    second. *)
Inductive Optional (A : Type) : Type :=
| missing
| undefined
| present (a : A).
Arguments missing {A}.
Arguments undefined {A}.
Arguments present {A} a.

(** [McpServerConfig]: every field is optional. *)
Record McpServerConfig : Type := {
  port : Optional Z;
  allowedOperations : Optional (list OperationType);
  requireConfirmation : Optional bool
}.

(** One property of [{ key: preset, ...serverConfig }]: the spread copies
    every own property of [serverConfig] over the preset one, also a
    property that holds [undefined]. *)
Definition spread {A : Type} (preset : A) (given : Optional A) : Optional A :=
  match given with
  | missing => present preset
  | own => own
  end.

(** [{ port: 3000, allowedOperations: ['read', 'prepare', 'info'],
    requireConfirmation: true, ...serverConfig }] *)
Definition with_defaults (serverConfig : McpServerConfig) : McpServerConfig :=
  {| port := spread 3000%Z (port serverConfig);
     allowedOperations :=
       spread [read; prepare; info] (allowedOperations serverConfig);
     requireConfirmation := spread true (requireConfirmation serverConfig) |}.

(** [this.config.allowedOperations?.includes(op)], as a condition. *)
Definition includes (cfg : McpServerConfig) (op : OperationType) : bool :=
  match allowedOperations cfg with
  | present ops => existsb (same_operation op) ops
  | _ => false
  end.

(** [this.config.requireConfirmation], as a condition. *)
Definition confirmation_required (cfg : McpServerConfig) : bool :=
  match requireConfirmation cfg with
  | present b => b
  | _ => false
  end.

(** The five handler closures of [registerTools]. *)
Inductive Handler : Type :=
| getAddressHandler
| getBalanceHandler
| signTransactionHandler
| getTokenBalanceHandler
| sendTransactionHandler.

Record Tool : Type := {
  name : string;
  description : string;
  inputSchema : JsValue;
  outputSchema : JsValue;
  handler : Handler
}.

Inductive Status : Type := pending | confirmed | rejected.

Record PendingTx : Type := {
  params : JsValue;
  status : Status;
  createdAt : Z
}.

Definition with_status (s : Status) (tx : PendingTx) : PendingTx :=
  {| params := params tx; status := s; createdAt := createdAt tx |}.

Inductive LogLevel : Type := level_info | level_error.

(** The server object, with the two things outside it that its methods
    write to: the wallet, kept as the list of calls made to it, and the
    logging channel, kept as the levels of the messages sent. *)
Record McpServer : Type := {
  config : McpServerConfig;
  tools : list Tool;
  pendingConfirmations : gmap string PendingTx;
  walletCalls : list Wallet.Call;
  logged : list LogLevel
}.

Definition set_tools (ts : list Tool) (st : McpServer) : McpServer :=
  {| config := config st; tools := ts;
     pendingConfirmations := pendingConfirmations st;
     walletCalls := walletCalls st; logged := logged st |}.

Definition set_pending (m : gmap string PendingTx) (st : McpServer) : McpServer :=
  {| config := config st; tools := tools st;
     pendingConfirmations := m;
     walletCalls := walletCalls st; logged := logged st |}.

(** [this.mcpServer.sendLoggingMessage({ level, data })].  The SDK method is
    asynchronous and its promise is dropped: it never throws into the
    caller.  Building [data] can, and that is modelled where it happens. *)
Definition sendLoggingMessage (level : LogLevel) (st : McpServer) : McpServer :=
  {| config := config st; tools := tools st;
     pendingConfirmations := pendingConfirmations st;
     walletCalls := walletCalls st; logged := logged st ++ [level] |}.

(** [await this.wallet.m(...)]. *)
Definition ask (wallet : Wallet.t) (c : Wallet.Call) (st : McpServer)
  : Wallet.Settled * McpServer :=
  (wallet (walletCalls st) c,
   {| config := config st; tools := tools st;
      pendingConfirmations := pendingConfirmations st;
      walletCalls := walletCalls st ++ [c]; logged := logged st |}).

(** What a call draws from the environment: [crypto.randomUUID()] and
    [Date.now()]. *)
Record Env : Type := {
  randomUUID : string;
  Date_now : Z
}.

(** ** Exceptions *)

Inductive Thrown : Type :=
| JsError (message : string)       (* [error instanceof Error] *)
| NonError.

Inductive Outcome (A : Type) : Type :=
| Returned (a : A)
| Threw (e : Thrown).
Arguments Returned {A} a.
Arguments Threw {A} e.

(** The TypeErrors of the engine, in the wording of Node (V8). *)
Definition cannot_read (v : JsValue) (key : string) : string :=
  "Cannot read properties of "
  +:+ match v with VNull => "null" | _ => "undefined" end
  +:+ " (reading '" +:+ key +:+ "')".

Definition cannot_convert : string := "Cannot convert object to primitive value".

(** The constructor, once [new EvmMcpWallet(walletConfig)] has returned:
    the merged configuration, no tool, no pending entry. *)
Definition new_McpServer (serverConfig : McpServerConfig) : McpServer :=
  {| config := with_defaults serverConfig;
     tools := [];
     pendingConfirmations := ∅;
     walletCalls := [];
     logged := [] |}.

(** ** Confirming and rejecting *)

Definition not_found (txId : string) : string :=
  "Transaction with ID " +:+ txId +:+ " not found".

(** [confirmTransaction(txId)] *)
Definition confirmTransaction (wallet : Wallet.t) (txId : string) (st : McpServer)
  : Outcome string * McpServer :=
  match pendingConfirmations st !! txId with
  | None =>
      (Threw (JsError (not_found txId)), sendLoggingMessage level_error st)
  | Some pendingTx =>
      let st1 :=
        set_pending (<[txId := with_status confirmed pendingTx]> (pendingConfirmations st)) st in
      match ask wallet (Wallet.sendTransaction (params pendingTx)) st1 with
      | (Wallet.Resolved result, st2) =>
          (Returned result, sendLoggingMessage level_info st2)
      | (Wallet.Rejected message, st2) =>
          (Threw (JsError message), sendLoggingMessage level_error st2)
      end
  end.

(** [rejectTransaction(txId)] *)
Definition rejectTransaction (txId : string) (st : McpServer)
  : Outcome unit * McpServer :=
  match pendingConfirmations st !! txId with
  | None =>
      (Threw (JsError (not_found txId)), sendLoggingMessage level_error st)
  | Some pendingTx =>
      let st1 :=
        set_pending (<[txId := with_status rejected pendingTx]> (pendingConfirmations st)) st in
      (Returned tt, sendLoggingMessage level_info st1)
  end.

(** ** The registered tools *)

Definition obj_of_strings (fields : list (string * string)) : JsValue :=
  VObj (map (fun kv => (fst kv, VStr (snd kv))) fields).

(** [JSON.stringify({ zh, en })] *)
Definition bilingual (zh en : string) : string :=
  JSON.stringify (obj_of_strings [("zh", zh); ("en", en)]).

Definition address_pattern : string := "^0x[a-fA-F0-9]{40}$".
Definition digits_pattern : string := "^[0-9]+$".
Definition hash_pattern : string := "^0x[a-fA-F0-9]{64}$".

Definition no_parameters : JsValue :=
  VObj [("type", VStr "object");
        ("properties", VObj []);
        ("required", VArr []);
        ("additionalProperties", VBool false)].

Definition transaction_parameters : JsValue :=
  VObj [("type", VStr "object");
        ("properties",
          VObj [("to", VObj [("type", VStr "string");
                             ("pattern", VStr address_pattern);
                             ("description", VStr (bilingual "接收地址" "Recipient address"))]);
                ("value", VObj [("type", VStr "string");
                                ("pattern", VStr digits_pattern);
                                ("description", VStr (bilingual "转账金额(wei)" "Amount in wei"))]);
                ("data", VObj [("type", VStr "string");
                               ("description", VStr (bilingual "交易数据" "Transaction data"))])]);
        ("required", VArr [VStr "to"; VStr "value"]);
        ("additionalProperties", VBool false)].

Definition getAddressTool : Tool :=
  {| name := "wallet_getAddress";
     description := bilingual "获取钱包地址" "Get wallet address";
     inputSchema := no_parameters;
     outputSchema :=
       VObj [("type", VStr "string");
             ("pattern", VStr address_pattern);
             ("description", VStr (bilingual "以太坊地址" "Ethereum address"))];
     handler := getAddressHandler |}.

Definition getBalanceTool : Tool :=
  {| name := "wallet_getBalance";
     description := bilingual "获取ETH余额" "Get ETH balance";
     inputSchema := no_parameters;
     outputSchema :=
       VObj [("type", VStr "string");
             ("pattern", VStr digits_pattern);
             ("description", VStr (bilingual "余额（wei单位）" "Balance in wei"))];
     handler := getBalanceHandler |}.

Definition signTransactionTool : Tool :=
  {| name := "wallet_signTransaction";
     description := "对交易进行签名";
     inputSchema := transaction_parameters;
     outputSchema :=
       VObj [("type", VStr "object");
             ("properties",
               VObj [("signedTransaction",
                       VObj [("type", VStr "string");
                             ("description",
                               VStr (bilingual "已签名的交易数据" "Signed transaction data"))])]);
             ("required", VArr [VStr "signedTransaction"])];
     handler := signTransactionHandler |}.

Definition getTokenBalanceTool : Tool :=
  {| name := "wallet_getTokenBalance";
     description := "获取代币余额";
     inputSchema :=
       VObj [("type", VStr "object");
             ("properties",
               VObj [("token", VObj [("type", VStr "string");
                                     ("pattern", VStr address_pattern);
                                     ("description",
                                       VStr (bilingual "代币合约地址" "Token contract address"))]);
                     ("decimals", VObj [("type", VStr "number");
                                        ("description",
                                          VStr (bilingual "代币精度" "Token decimals"));
                                        ("default", VNum "18")])]);
             ("required", VArr [VStr "token"]);
             ("additionalProperties", VBool false)];
     outputSchema :=
       VObj [("type", VStr "string");
             ("description", VStr (bilingual "代币余额" "Token balance"))];
     handler := getTokenBalanceHandler |}.

Definition sendTransactionTool : Tool :=
  {| name := "wallet_sendTransaction";
     description := "发送ETH交易(需要确认)";
     inputSchema := transaction_parameters;
     outputSchema :=
       VObj [("type", VStr "object");
             ("properties",
               VObj [("transactionHash",
                       VObj [("type", VStr "string");
                             ("pattern", VStr hash_pattern);
                             ("description", VStr (bilingual "交易哈希" "Transaction hash"))])]);
             ("required", VArr [VStr "transactionHash"])];
     handler := sendTransactionHandler |}.

Definition push (t : Tool) (st : McpServer) : McpServer :=
  set_tools (tools st ++ [t]) st.

(** [registerTools()] *)
Definition registerTools (st : McpServer) : McpServer :=
  let st :=
    if includes (config st) read
    then push getBalanceTool (push getAddressTool st) else st in
  let st :=
    if includes (config st) prepare
    then push signTransactionTool st else st in
  let st :=
    if includes (config st) info
    then push getTokenBalanceTool st else st in
  let st :=
    if includes (config st) transaction && confirmation_required (config st)
    then push sendTransactionTool st else st in
  st.

(** [start()]: the transport connection aside. *)
Definition start (st : McpServer) : McpServer :=
  sendLoggingMessage level_info
    (sendLoggingMessage level_info
       (registerTools (sendLoggingMessage level_info st))).

(** ** The tool handlers *)

(** The message of the error by which [wallet_sendTransaction] asks for a
    confirmation. *)
Definition need_confirmation (txId : string) : JsValue :=
  obj_of_strings
    [("code", "NEED_CONFIRMATION");
     ("message",
       JSON.stringify
         (obj_of_strings
            [("zh", "交易等待用户确认 (ID: " +:+ txId +:+ ")");
             ("en", "Transaction pending confirmation (ID: " +:+ txId +:+ ")")]))].

(** A template literal holding [${v}], inside a [try] whose [catch] logs and
    rethrows. *)
Definition interpolate (v : option JsValue) (on_missing : string)
  : option string :=
  match v with
  | None => Some on_missing
  | Some x => if Js.stringifiable x then None else Some cannot_convert
  end.

Definition run_handler (env : Env) (wallet : Wallet.t) (h : Handler)
    (args : JsValue) (st : McpServer) : Outcome JsValue * McpServer :=
  match h with
  | getAddressHandler =>
      match ask wallet Wallet.getAddress st with
      | (Wallet.Resolved address, st1) =>
          (Returned (VStr address), sendLoggingMessage level_info st1)
      | (Wallet.Rejected message, st1) =>
          (Threw (JsError message), sendLoggingMessage level_error st1)
      end
  | getBalanceHandler =>
      match ask wallet Wallet.getBalance st with
      | (Wallet.Resolved balance, st1) =>
          (Returned (VStr balance), sendLoggingMessage level_info st1)
      | (Wallet.Rejected message, st1) =>
          (Threw (JsError message), sendLoggingMessage level_error st1)
      end
  | signTransactionHandler =>
      match ask wallet (Wallet.signTransaction args) st with
      | (Wallet.Resolved signedTx, st1) =>
          match interpolate (Js.get args "to") (cannot_read args "to") with
          | None =>
              (Returned (VObj [("signedTransaction", VStr signedTx)]),
               sendLoggingMessage level_info st1)
          | Some type_error =>
              (Threw (JsError type_error), sendLoggingMessage level_error st1)
          end
      | (Wallet.Rejected message, st1) =>
          (Threw (JsError message), sendLoggingMessage level_error st1)
      end
  | getTokenBalanceHandler =>
      match Js.get args "token", Js.get args "decimals" with
      | Some token, Some decimals =>
          match ask wallet (Wallet.getTokenBalance token decimals) st with
          | (Wallet.Resolved balance, st1) =>
              match interpolate (Some token) "" with
              | None =>
                  (Returned (VStr balance), sendLoggingMessage level_info st1)
              | Some type_error =>
                  (Threw (JsError type_error), sendLoggingMessage level_error st1)
              end
          | (Wallet.Rejected message, st1) =>
              (Threw (JsError message), sendLoggingMessage level_error st1)
          end
      | None, _ =>
          (Threw (JsError (cannot_read args "token")),
           sendLoggingMessage level_error st)
      | Some _, None =>
          (Threw (JsError (cannot_read args "decimals")),
           sendLoggingMessage level_error st)
      end
  | sendTransactionHandler =>
      if confirmation_required (config st) then
        let txId := randomUUID env in
        let st1 :=
          set_pending
            (<[txId := {| params := args; status := pending;
                          createdAt := Date_now env |}]>
               (pendingConfirmations st)) st in
        (Threw (JsError (JSON.stringify (need_confirmation txId))),
         sendLoggingMessage level_info st1)
      else
        match ask wallet (Wallet.sendTransaction args) st with
        | (Wallet.Resolved txHash, st1) =>
            (Returned (VObj [("transactionHash", VStr txHash)]),
             sendLoggingMessage level_info st1)
        | (Wallet.Rejected message, st1) =>
            (Threw (JsError message), sendLoggingMessage level_error st1)
        end
  end.

(** ** The request handlers *)

Record CallToolRequest : Type := {
  tool_name : string;      (* [request.params.name] *)
  arguments : JsValue      (* [request.params.params] *)
}.

(** [{ result }] or [{ error }] *)
Inductive Response : Type :=
| result (value : JsValue)
| error (value : JsValue).

Definition tool_error (message : string) : JsValue :=
  obj_of_strings [("code", "TOOL_ERROR"); ("message", message)].

Definition unknown_error : JsValue :=
  obj_of_strings [("code", "UNKNOWN_ERROR"); ("message", "An unknown error occurred")].

(** The [catch] clause of the call handler. *)
Definition on_error (e : Thrown) (st : McpServer) : Response * McpServer :=
  match e with
  | JsError message =>
      match JSON.parse message with
      | Some parsedError =>
          (* the log line reads [parsedError.message] into a template *)
          match interpolate (Js.get parsedError "message") "" with
          | None => (error parsedError, sendLoggingMessage level_info st)
          | Some _ =>
              (error (tool_error message), sendLoggingMessage level_error st)
          end
      | None => (error (tool_error message), sendLoggingMessage level_error st)
      end
  | NonError => (error unknown_error, sendLoggingMessage level_error st)
  end.

(** The handler set for [CallToolRequestSchema]. *)
Definition callTool (env : Env) (wallet : Wallet.t) (request : CallToolRequest)
    (st : McpServer) : Response * McpServer :=
  match find (fun t => String.eqb (name t) (tool_name request)) (tools st) with
  | None =>
      on_error (JsError ("Tool " +:+ tool_name request +:+ " not found"))
        (sendLoggingMessage level_error st)
  | Some tool =>
      match run_handler env wallet (handler tool) (arguments request) st with
      | (Returned value, st1) =>
          (result value, sendLoggingMessage level_info st1)
      | (Threw e, st1) => on_error e st1
      end
  end.

(** The handler set for [ListToolsRequestSchema]. *)
Definition listTools (st : McpServer) : list Tool * McpServer :=
  (tools st, sendLoggingMessage level_info st).

(** A server whose tool list is what [registerTools] pushes, under its own
    configuration, onto the empty list: [start()] has run once. *)
Definition started (st : McpServer) : Prop :=
  tools st = tools (registerTools (set_tools [] st)).

(** ** What the specification measures the server against *)

(** The tier each tool is registered under, in the order of registration. *)
Definition registry : list (OperationType * Tool) :=
  [(read, getAddressTool);
   (read, getBalanceTool);
   (prepare, signTransactionTool);
   (info, getTokenBalanceTool);
   (transaction, sendTransactionTool)].

(** The listing in the specification's words: the descriptors whose tier is
    in the active configuration, in registration order. *)
Definition listEnabled_spec (cfg : McpServerConfig) : list Tool :=
  map snd (filter (fun entry => includes cfg (fst entry)) registry).

(** The gate [registerTools] applies to a tier. *)
Definition registers (cfg : McpServerConfig) (op : OperationType) : bool :=
  match op with
  | transaction => includes cfg transaction && confirmation_required cfg
  | _ => includes cfg op
  end.

(** Parameters matching an input schema, in the specification's words:
    presence of the required fields, primitive type match and pattern
    constraints.  The server has no such check; this reads the schemas the
    tools declare. *)
Module Schema.

Fixpoint all_chars (p : ascii -> bool) (s : string) : bool :=
  match s with
  | EmptyString => true
  | String c rest => p c && all_chars p rest
  end.

Definition is_hex (c : ascii) : bool :=
  match JSON.hex_value c with Some _ => true | None => false end.

(** [^0x[a-fA-F0-9]{n}$] *)
Definition is_hex_word (n : nat) (s : string) : bool :=
  match s with
  | String "0" (String "x" digits) =>
      Nat.eqb (String.length digits) n && all_chars is_hex digits
  | _ => false
  end.

(** [^[0-9]+$] *)
Definition is_digits (s : string) : bool :=
  match s with
  | EmptyString => false
  | _ => all_chars JSON.is_digit s
  end.

(** [new RegExp(pattern).test(s)] for the three patterns in use. *)
Definition pattern_test (pattern s : string) : bool :=
  if String.eqb pattern address_pattern then is_hex_word 40 s
  else if String.eqb pattern digits_pattern then is_digits s
  else if String.eqb pattern hash_pattern then is_hex_word 64 s
  else true.

Definition property_ok (schema v : JsValue) : bool :=
  match Js.get schema "type" with
  | Some (VStr type) =>
      if String.eqb type "string" then
        match v with
        | VStr s =>
            match Js.get schema "pattern" with
            | Some (VStr pattern) => pattern_test pattern s
            | _ => true
            end
        | _ => false
        end
      else if String.eqb type "number" then
        match v with VNum _ => true | _ => false end
      else true
  | _ => true
  end.

Definition members_of (v : option JsValue) : list (string * JsValue) :=
  match v with Some (VObj ms) => ms | _ => [] end.

Definition elements_of (v : option JsValue) : list JsValue :=
  match v with Some (VArr xs) => xs | _ => [] end.

Definition conforms (schema args : JsValue) : bool :=
  match args with
  | VObj given =>
      forallb (fun r =>
                 match r with
                 | VStr key =>
                     match Js.own_property given key with
                     | Some _ => true
                     | None => false
                     end
                 | _ => true
                 end) (elements_of (Js.get schema "required"))
      && forallb (fun kv =>
                    match Js.own_property
                            (members_of (Js.get schema "properties")) (fst kv) with
                    | Some property => property_ok property (snd kv)
                    | None =>
                        match Js.get schema "additionalProperties" with
                        | Some (VBool false) => false
                        | _ => true
                        end
                    end) given
  | _ => false
  end.

End Schema.

(** ** Sample data *)

Module Sample.

Definition recipient : string := "0x52908400098527886E0F7030069857D2E4169EE7".

Definition transfer : JsValue :=
  obj_of_strings [("to", recipient); ("value", "1000000000000000")].

Definition hash : string :=
  "0x88df016429689c079f3b2f6ad39fa052532c56795b733da78a91ebe6a713944b".

(** A wallet where every call succeeds. *)
Definition obliging : Wallet.t := fun _ _ => Wallet.Resolved hash.

(** A wallet where every call fails. *)
Definition broke : Wallet.t := fun _ _ => Wallet.Rejected "insufficient funds".

Definition env : Env :=
  {| randomUUID := "3f2b6c1e-8a47-4d0b-9c55-0e6f1a2b7d90";
     Date_now := 1700000000000 |}.

Definition everything (confirm : bool) : McpServerConfig :=
  {| port := missing;
     allowedOperations := present [read; prepare; info; transaction];
     requireConfirmation := present confirm |}.

Definition server (confirm : bool) : McpServer :=
  start (new_McpServer (everything confirm)).

(** A wallet whose every failure reads [null]. *)
Definition laconic : Wallet.t := fun _ _ => Wallet.Rejected "null".

(** A wallet whose every failure carries the text of a confirmation
    request. *)
Definition mimic : Wallet.t :=
  fun _ _ => Wallet.Rejected (JSON.stringify (need_confirmation "none")).

(** A wallet whose first call fails and whose later calls succeed. *)
Definition flaky : Wallet.t :=
  fun calls _ =>
    match calls with
    | [] => Wallet.Rejected "insufficient funds"
    | _ => Wallet.Resolved hash
    end.

(** One transfer parked for confirmation. *)
Definition parked : McpServer :=
  snd (callTool env obliging
         {| tool_name := "wallet_sendTransaction"; arguments := transfer |}
         (server true)).

End Sample.

(** ** Auxiliary definitions for the results below *)

(** The tools [registerTools] pushes under a configuration. *)
Definition registered (cfg : McpServerConfig) : list Tool :=
  (if includes cfg read then [getAddressTool; getBalanceTool] else [])
  ++ (if includes cfg prepare then [signTransactionTool] else [])
  ++ (if includes cfg info then [getTokenBalanceTool] else [])
  ++ (if includes cfg transaction && confirmation_required cfg
      then [sendTransactionTool] else []).

(** What a caller of [confirmTransaction] sees of the wallet's outcome. *)
Definition settle (outcome : Wallet.Settled) : Outcome string :=
  match outcome with
  | Wallet.Resolved value => Returned value
  | Wallet.Rejected message => Threw (JsError message)
  end.

(** What a handler returns for the string its wallet call answered. *)
Definition tool_result (h : Handler) (value : string) : JsValue :=
  match h with
  | signTransactionHandler => VObj [("signedTransaction", VStr value)]
  | sendTransactionHandler => VObj [("transactionHash", VStr value)]
  | _ => VStr value
  end.

(** The wallet call a handler makes for parameters it can read. *)
Definition capability (h : Handler) (args : JsValue) : Wallet.Call :=
  let member key := default VUndefined (Js.get args key) in
  match h with
  | getAddressHandler => Wallet.getAddress
  | getBalanceHandler => Wallet.getBalance
  | signTransactionHandler => Wallet.signTransaction args
  | getTokenBalanceHandler =>
      Wallet.getTokenBalance (member "token") (member "decimals")
  | sendTransactionHandler => Wallet.sendTransaction args
  end.

(** A parsed error message that the call handler passes on as it is: its
    [message] can be read and put into the log line. *)
Definition structured (parsedError : JsValue) : bool :=
  match Js.get parsedError "message" with
  | Some m => Js.stringifiable m
  | None => false
  end.

(** What one character of a string becomes when its escape is read back. *)
Definition piece_of (c : ascii) : JSON.piece :=
  let n := N_of_ascii c in
  if ((n <? 32)
      && negb ((n =? 8) || (n =? 9) || (n =? 10) || (n =? 12) || (n =? 13)))%N
  then JSON.Unit n else JSON.Raw c.

(** The text of an object member whose value is a string. *)
Definition member_text (kv : string * string) : string :=
  JSON.quote (fst kv) +:+ ":" +:+ JSON.quote (snd kv).

(** ** Histories of requests

    What reaches a running server, one request after another: a tool call
    (with what it draws from the environment), a listing, a confirmation, a
    rejection. *)

Inductive Request : Type :=
| ToolCall (env : Env) (request : CallToolRequest)
| Listing
| Confirm (txId : string)
| Reject (txId : string).

Definition serve (wallet : Wallet.t) (r : Request) (st : McpServer) : McpServer :=
  match r with
  | ToolCall env request => snd (callTool env wallet request st)
  | Listing => snd (listTools st)
  | Confirm txId => snd (confirmTransaction wallet txId st)
  | Reject txId => snd (rejectTransaction txId st)
  end.

Fixpoint serve_all (wallet : Wallet.t) (rs : list Request) (st : McpServer)
  : McpServer :=
  match rs with
  | [] => st
  | r :: rest => serve_all wallet rest (serve wallet r st)
  end.

(** The request draws [txId] as its fresh identifier. *)
Definition draws (txId : string) (r : Request) : Prop :=
  match r with
  | ToolCall env _ => randomUUID env = txId
  | _ => False
  end.

(** The request asks [wallet_sendTransaction] to send [p]. *)
Definition parks (p : JsValue) (r : Request) : Prop :=
  match r with
  | ToolCall _ request =>
      tool_name request = "wallet_sendTransaction" /\ arguments request = p
  | _ => False
  end.

(** ** Wallet set-up: which key the wallet is built from

    [EvmMcpWallet]'s constructor and [initializeWallet] of the stdio server
    build the signing wallet from a configuration through the same calls
    into ethers, bip39 and hdkey; the first throws where the second answers
    [null].  What those libraries answer is not in this repository: each of
    their calls is taken as it comes, returning a value or throwing. *)

From stdpp Require Import pretty.

Module Hd.

(** [s.endsWith(suffix)] *)
Fixpoint endsWith (s suffix : string) : bool :=
  if String.eqb s suffix then true
  else match s with
       | EmptyString => false
       | String _ rest => endsWith rest suffix
       end.

(** [s.slice(0, -1)] *)
Fixpoint drop_last (s : string) : string :=
  match s with
  | EmptyString => ""
  | String _ EmptyString => ""
  | String c rest => String c (drop_last rest)
  end.

Definition default_path : string := "m/44'/60'/0'/0/0".

(** The fields of [WalletConfig] that the set-up reads.  An account index
    is a whole number, below [2^53] so that JavaScript holds it exactly and
    writes it in decimal. *)
Record WalletConfig : Type := {
  rpcUrl : string;
  chainId : JsValue;
  privateKey : option string;
  mnemonic : option string;
  address : option string;
  derivationPath : option string;
  accountIndex : option N
}.

(** A string as a condition: [undefined] and the empty string are falsy. *)
Definition given (field : option string) : option string :=
  match field with
  | Some EmptyString => None
  | other => other
  end.

(** [const derivationPath = config.derivationPath || "m/44'/60'/0'/0/0";
     const accountIndex = config.accountIndex || 0;
     const path = derivationPath.endsWith('/0') && accountIndex > 0
       ? derivationPath.slice(0, -1) + accountIndex : derivationPath;] *)
Definition path (config : WalletConfig) : string :=
  let derivationPath := default default_path (given (derivationPath config)) in
  let accountIndex := default 0%N (accountIndex config) in
  if endsWith derivationPath "/0" && (0 <? accountIndex)%N
  then drop_last derivationPath +:+ pretty accountIndex
  else derivationPath.

(** A call that throws ends the routine with what it threw. *)
#[global] Instance Outcome_bind : MBind Outcome :=
  fun A B k o =>
    match o with
    | Returned a => k a
    | Threw e => Threw e
    end.

(** What ethers, bip39 and hdkey answer.  Every constructor and function of
    theirs that the set-up calls returns or throws (on a key that is not a
    key, a path that does not parse, an index the derivation refuses, ...),
    and what it does depends on its arguments alone. *)
Record Libraries : Type := {
  Provider : Type;                 (* [ethers.JsonRpcProvider] *)
  Signer : Type;                   (* [ethers.Wallet] *)
  Seed : Type;                     (* the [Buffer] of a seed *)
  Node : Type;                     (* [HDKey] *)
  new_JsonRpcProvider : string -> JsValue -> Outcome Provider;
  new_Wallet : string -> Provider -> Outcome Signer;
  mnemonicToSeedSync : string -> Outcome Seed;
  fromMasterSeed : Seed -> Outcome Node;
  derive : Node -> string -> Outcome Node;
  (* [node.privateKey?.toString('hex')]; [None] is [undefined] *)
  privateKey_hex : Node -> option string
}.

(** ['0x' + child.privateKey?.toString('hex')] *)
Definition hex_key (lib : Libraries) (child : Node lib) : string :=
  "0x" +:+ default "undefined" (privateKey_hex lib child).

(** [new EvmMcpWallet(config)], as the [ethers.Wallet] it holds. *)
Definition EvmMcpWallet (lib : Libraries) (config : WalletConfig)
  : Outcome (Signer lib) :=
  provider ← new_JsonRpcProvider lib (rpcUrl config) (chainId config);
  match given (privateKey config) with
  | Some key => new_Wallet lib key provider
  | None =>
      match given (mnemonic config) with
      | Some phrase =>
          seed ← mnemonicToSeedSync lib phrase;
          hdkey ← fromMasterSeed lib seed;
          child ← derive lib hdkey (path config);
          new_Wallet lib (hex_key lib child) provider
      | None => Threw (JsError "Either privateKey or mnemonic must be provided")
      end
  end.

(** [initializeWallet(config)]; [None] is [null]. *)
Definition initializeWallet (lib : Libraries) (config : WalletConfig)
  : Outcome (option (Signer lib)) :=
  provider ← new_JsonRpcProvider lib (rpcUrl config) (chainId config);
  match given (privateKey config) with
  | Some key =>
      wallet ← new_Wallet lib key provider;
      Returned (Some wallet)
  | None =>
      match given (mnemonic config) with
      | Some phrase =>
          seed ← mnemonicToSeedSync lib phrase;
          hdkey ← fromMasterSeed lib seed;
          child ← derive lib hdkey (path config);
          wallet ← new_Wallet lib (hex_key lib child) provider;
          Returned (Some wallet)
      | None => Returned None
      end
  end.

(** Libraries for the examples: a provider for every URL, a wallet for a
    key of 66 characters only, a seed for every phrase and a child for
    every path. *)
Definition plain : Libraries :=
  {| Provider := unit;
     Signer := string;
     Seed := string;
     Node := string;
     new_JsonRpcProvider := fun _ _ => Returned tt;
     new_Wallet := fun key _ =>
       if (String.length key =? 66)%nat then Returned key
       else Threw (JsError "invalid private key");
     mnemonicToSeedSync := fun phrase => Returned phrase;
     fromMasterSeed := fun seed => Returned seed;
     derive := fun node path => Returned (node +:+ path);
     privateKey_hex := fun node => Some node |}.

End Hd.

(** ** Token and chain look-up of the stdio server *)

Module Lookup.

Definition is_ascii (s : string) : bool :=
  forallb (fun c => (N_of_ascii c <? 128)%N) (list_ascii_of_string s).

Definition upper_char (c : ascii) : ascii :=
  let n := N_of_ascii c in
  if ((97 <=? n) && (n <=? 122))%N then ascii_of_N (n - 32) else c.

Definition lower_char (c : ascii) : ascii :=
  let n := N_of_ascii c in
  if ((65 <=? n) && (n <=? 90))%N then ascii_of_N (n + 32) else c.

Fixpoint map_chars (f : ascii -> ascii) (s : string) : string :=
  match s with
  | EmptyString => ""
  | String c rest => String (f c) (map_chars f rest)
  end.

(** [s.toUpperCase()] and [s.toLowerCase()], for a string of ASCII
    characters (other bytes are kept as they are). *)
Definition toUpperCase (s : string) : string := map_chars upper_char s.
Definition toLowerCase (s : string) : string := map_chars lower_char s.

(** The entries of [CHAIN_IDS] that the server reads. *)
Definition MONAD : Z := 201.
Definition MONAD_TESTNET : Z := 10143.
Definition ETHEREUM : Z := 1.
Definition POLYGON : Z := 137.
Definition ARBITRUM_ONE : Z := 42161.
Definition OPTIMISM : Z := 10.
Definition BSC : Z := 56.
Definition AVALANCHE : Z := 43114.

Definition MONAD_TOKENS : list (string * string) :=
  [("MONAD", "MONAD");
   ("WMONAD", "0xC02aaA39b223FE8D0A0e5C4F27eAD9083C756Cc2");
   ("USDT", "0xdAC17F958D2ee523a2206206994597C13D831ec7");
   ("USDC", "0xA0b86991c6218b36c1d19D4a2e9Eb0cE3606eB48");
   ("DAI", "0x6B175474E89094C44Da98b954EedeAC495271d0F")].

Definition ETHEREUM_TOKENS : list (string * string) :=
  [("ETH", "ETH");
   ("WETH", "0xC02aaA39b223FE8D0A0e5C4F27eAD9083C756Cc2");
   ("USDT", "0xdAC17F958D2ee523a2206206994597C13D831ec7");
   ("USDC", "0xA0b86991c6218b36c1d19D4a2e9Eb0cE3606eB48");
   ("DAI", "0x6B175474E89094C44Da98b954EedeAC495271d0F");
   ("WBTC", "0x2260FAC5E5542a773Aa44fBCfeDf7C193bc2C599");
   ("UNI", "0x1f9840a85d5aF5bf1D1762F925BDADdC4201F984");
   ("LINK", "0x514910771AF9Ca656af840dff83E8264EcF986CA");
   ("AAVE", "0x7Fc66500c84A76Ad7e9c93437bFc5Ac33E2DDaE9");
   ("SNX", "0xC011a73ee8576Fb46F5E1c5751cA3B9Fe0af2a6F");
   ("CRV", "0xD533a949740bb3306d119CC777fa900bA034cd52");
   ("COMP", "0xc00e94Cb662C3520282E6f5717214004A7f26888");
   ("MKR", "0x9f8F72aA9304c8B593d555F12eF6589cC3A579A2");
   ("SUSHI", "0x6B3595068778DD592e39A122f4f5a5cF09C90fE2")].

(** [table[key]] for a key in upper case, which none of the names that a
    plain object inherits is. *)
Fixpoint entry (table : list (string * string)) (key : string) : option string :=
  match table with
  | [] => None
  | (k, v) :: rest => if String.eqb k key then Some v else entry rest key
  end.

(** [s.startsWith('0x') && s.length === 42] *)
Definition address_shaped (s : string) : bool :=
  String.prefix "0x" s && Nat.eqb (String.length s) 42.

Definition native_symbol (s : string) : bool :=
  String.eqb (toUpperCase s) "MONAD"
  || String.eqb (toUpperCase s) "MON"
  || String.eqb (toUpperCase s) "ETH".

(** [getTokenAddress(tokenSymbolOrAddress, chainId)] *)
Definition getTokenAddress (tokenSymbolOrAddress : string) (chainId : Z)
  : Outcome string :=
  if address_shaped tokenSymbolOrAddress then Returned tokenSymbolOrAddress
  else if native_symbol tokenSymbolOrAddress then
    Returned (if (chainId =? MONAD)%Z then "MONAD"
              else if (chainId =? MONAD_TESTNET)%Z then "MON"
              else "ETH")
  else
    let listed :=
      if (chainId =? MONAD)%Z
      then entry MONAD_TOKENS (toUpperCase tokenSymbolOrAddress)
      else if (chainId =? MONAD_TESTNET)%Z
      then entry MONAD_TOKENS (toUpperCase tokenSymbolOrAddress)
      else if (chainId =? ETHEREUM)%Z
      then entry ETHEREUM_TOKENS (toUpperCase tokenSymbolOrAddress)
      else None in
    match Hd.given listed with
    | Some address => Returned address
    | None => Threw (JsError ("Unknown token symbol: " +:+ tokenSymbolOrAddress))
    end.

(** What [chainMap[key]] can be: one of its six numbers, or what a plain
    object inherits under the two inherited names written in lower case,
    [constructor] and [__proto__]. *)
Inductive ChainMapValue : Type :=
| chain (id : Z)
| Object_function
| Object_prototype.

Definition chainMap (key : string) : option ChainMapValue :=
  if String.eqb key "ethereum" then Some (chain ETHEREUM)
  else if String.eqb key "polygon" then Some (chain POLYGON)
  else if String.eqb key "arbitrum" then Some (chain ARBITRUM_ONE)
  else if String.eqb key "optimism" then Some (chain OPTIMISM)
  else if String.eqb key "bsc" then Some (chain BSC)
  else if String.eqb key "avalanche" then Some (chain AVALANCHE)
  else if String.eqb key "constructor" then Some Object_function
  else if String.eqb key "__proto__" then Some Object_prototype
  else None.

(** [getChainId(chainName)]: every value of the map is truthy. *)
Definition getChainId (chainName : string) : Outcome ChainMapValue :=
  match chainMap (toLowerCase chainName) with
  | Some chainId => Returned chainId
  | None => Threw (JsError ("Chain " +:+ chainName +:+ " not supported"))
  end.

(** [`${chainId}`] *)
Definition show (v : ChainMapValue) : string :=
  match v with
  | chain id => pretty id
  | Object_function => "function Object() { [native code] }"
  | Object_prototype => "[object Object]"
  end.

(** A method called on an argument that is not a string: the TypeError. *)
Definition not_a_string (v : JsValue) (what method : string) : string :=
  match v with
  | VUndefined | VNull => cannot_read v method
  | _ => what +:+ "." +:+ method +:+ " is not a function"
  end.

(** The [mcp_bridge] case of the call handler, from the test of the
    arguments down to the look-up of the token: everything it does before it
    first goes to the network.  [wallet] tells whether a signing wallet
    exists, [chainId] is [config.chainId]; the arguments are absent or an
    object.  It answers the two chain ids and the token address. *)
Definition bridge_checks (wallet : bool) (chainId : Z)
    (args : option (list (string * JsValue)))
  : Outcome (ChainMapValue * ChainMapValue * string) :=
  match args with
  | None => Threw (JsError "No arguments provided")
  | Some members =>
      if negb wallet then Threw (JsError "Wallet not available for bridging")
      else
        let field key := default VUndefined (Js.own_property members key) in
        match field "fromChain" with
        | VStr fromChain =>
            match getChainId fromChain with
            | Threw e => Threw e
            | Returned fromChainId =>
                match field "toChain" with
                | VStr toChain =>
                    match getChainId toChain with
                    | Threw e => Threw e
                    | Returned toChainId =>
                        match fromChainId with
                        | chain id =>
                            if (id =? chainId)%Z then
                              match field "token" with
                              | VStr token =>
                                  match getTokenAddress token id with
                                  | Returned tokenAddress =>
                                      Returned (fromChainId, toChainId, tokenAddress)
                                  | Threw e => Threw e
                                  end
                              | other =>
                                  Threw (JsError (not_a_string other
                                                    "tokenSymbolOrAddress"
                                                    "startsWith"))
                              end
                            else
                              Threw (JsError
                                       ("Current wallet is on chain ID "
                                        +:+ pretty chainId
                                        +:+ ", but bridge request is for chain ID "
                                        +:+ show fromChainId))
                        | _ =>
                            Threw (JsError
                                     ("Current wallet is on chain ID "
                                      +:+ pretty chainId
                                      +:+ ", but bridge request is for chain ID "
                                      +:+ show fromChainId))
                        end
                    end
                | other =>
                    Threw (JsError (not_a_string other "chainName" "toLowerCase"))
                end
            end
        | other => Threw (JsError (not_a_string other "chainName" "toLowerCase"))
        end
  end.

(** Every string among the arguments is ASCII. *)
Definition ascii_arguments (args : option (list (string * JsValue))) : Prop :=
  match args with
  | Some members =>
      Forall (fun kv => match snd kv with
                        | VStr s => is_ascii s = true
                        | _ => True
                        end) members
  | None => True
  end.

End Lookup.

(** [{}] *)
Definition no_config : McpServerConfig :=
  {| port := missing; allowedOperations := missing; requireConfirmation := missing |}.

(** [createMcpServer(walletConfig, serverConfig)], that is
    [new McpServer(walletConfig, serverConfig)] with the wallet it builds
    first; a [serverConfig] that is not given is [{}]. *)
Definition createMcpServer (lib : Hd.Libraries) (walletConfig : Hd.WalletConfig)
    (serverConfig : option McpServerConfig)
  : Outcome (Hd.Signer lib * McpServer) :=
  wallet ← Hd.EvmMcpWallet lib walletConfig;
  Returned (wallet, new_McpServer (default no_config serverConfig)).

(** * Results *)

(** ** JSON text read back *)

Module JSONFacts.
Import JSON.

Example parse_nested :
  parse " [1, -2.5e3, true, null, [ ], {}] "
  = Some (VArr [VNum "1"; VNum "-2.5e3"; VBool true; VNull; VArr []; VObj []]).
Proof. reflexivity. Qed.

Example parse_object :
  parse (stringify (VObj [("a", VArr [VStr "x"; VUndefined]); ("b", VUndefined);
                          ("a", VObj [("c", VBool false)])]))
  = Some (VObj [("a", VArr [VStr "x"; VNull]); ("a", VObj [("c", VBool false)])]).
Proof. reflexivity. Qed.

Example parse_rejects :
  parse "01" = None /\ parse "[1,]" = None /\ parse "[1 2]" = None
  /\ parse "nul" = None /\ parse "" = None /\ parse "insufficient funds" = None.
Proof. repeat split; reflexivity. Qed.

Example parse_escapes :
  parse (String dquote
           (String backslash "u00e9" +:+ String backslash "n"
            +:+ String backslash "ud83d" +:+ String backslash "ude00"
            +:+ String dquote ""))
  = Some (VStr ("é" +:+ String "010" "😀")).
Proof. reflexivity. Qed.

Example stringify_escapes :
  stringify (VArr [VStr (String dquote (String "009" (String "001" "x"))); VUndefined])
  = "[" +:+ String dquote
        (String backslash (String dquote
           (String backslash "t" +:+ String backslash "u0001x"
            +:+ String dquote ",null]"))).
Proof. reflexivity. Qed.

Lemma append_assoc (a b c : string) : (a +:+ b) +:+ c = a +:+ (b +:+ c).
Proof. induction a as [|x a IH]; simpl; [reflexivity | f_equal; exact IH]. Qed.

Lemma length_append (a b : string) :
  String.length (a +:+ b) = String.length a + String.length b.
Proof. induction a as [|x a IH]; simpl; [reflexivity | f_equal; exact IH]. Qed.

Ltac each_ascii c :=
  destruct c as [[] [] [] [] [] [] [] []].

Lemma string_pieces_escape_char (c : ascii) (tail : string) :
  string_pieces (escape_char c +:+ tail) =
  match string_pieces tail with
  | Some (ps, r) => Some (piece_of c :: ps, r)
  | None => None
  end.
Proof. each_ascii c; reflexivity. Qed.

Lemma assemble_piece_of (c : ascii) (ps : list piece) :
  assemble (piece_of c :: ps) = String c (assemble ps).
Proof.
  each_ascii c; try reflexivity;
    (destruct ps as [|[|] ps]; reflexivity).
Qed.

Lemma string_pieces_escape (s rest : string) :
  string_pieces (escape s +:+ String dquote rest) = Some (map piece_of (list_ascii_of_string s), rest).
Proof.
  induction s as [|c s IH]; [reflexivity|].
  cbn [escape]. rewrite append_assoc, string_pieces_escape_char, IH.
  reflexivity.
Qed.

Lemma assemble_pieces (s : string) :
  assemble (map piece_of (list_ascii_of_string s)) = s.
Proof.
  induction s as [|c s IH]; [reflexivity|].
  cbn [list_ascii_of_string map]. now rewrite assemble_piece_of, IH.
Qed.

(** A string literal written by [quote] is read back as the string. *)
Lemma string_body_escape (s rest : string) :
  string_body (escape s +:+ String dquote rest) = Some (s, rest).
Proof.
  unfold string_body. now rewrite string_pieces_escape, assemble_pieces.
Qed.

Lemma stringify_obj_of_strings (fields : list (string * string)) :
  stringify (obj_of_strings fields) =
  "{" +:+ join_comma (map member_text fields) +:+ "}".
Proof.
  unfold obj_of_strings. cbn [stringify].
  replace (flat_map _ _) with (map member_text fields); [reflexivity|].
  induction fields as [|[k s] fields IH]; [reflexivity|].
  cbn [map flat_map fst snd]. rewrite <- IH. reflexivity.
Qed.

Lemma member_text_shape (kv : string * string) (tail : string) :
  member_text kv +:+ tail =
  String dquote (escape (fst kv) +:+ String dquote
    (String ":" (String dquote (escape (snd kv) +:+ String dquote tail)))).
Proof.
  unfold member_text, quote. simpl. rewrite !append_assoc. simpl.
  rewrite !append_assoc. reflexivity.
Qed.

Lemma value_string (fuel : nat) (body : string) :
  value (S fuel) (String dquote body) =
  match string_body body with
  | Some (str, r) => Some (VStr str, r)
  | None => None
  end.
Proof. reflexivity. Qed.

Lemma members_unfold (fuel : nat) (body : string) :
  members (S fuel) (String dquote body) =
  match string_body body with
  | None => None
  | Some (key, s2) =>
      match skip_ws s2 with
      | String colon s3 =>
          if Ascii.eqb colon ":" then
            match value fuel s3 with
            | None => None
            | Some (x, r) =>
                match skip_ws r with
                | String c r' =>
                    if Ascii.eqb c "}" then Some ([(key, x)], r')
                    else if Ascii.eqb c "," then
                      match members fuel r' with
                      | Some (ms, r'') => Some ((key, x) :: ms, r'')
                      | None => None
                      end
                    else None
                | EmptyString => None
                end
            end
          else None
      | EmptyString => None
      end
  end.
Proof. reflexivity. Qed.

(** Reading one member whose value is a string. *)
Lemma members_string_member (fuel : nat) (kv : string * string) (tail : string) :
  members (S (S fuel)) (member_text kv +:+ tail) =
  match skip_ws tail with
  | String c r' =>
      if Ascii.eqb c "}" then Some ([(fst kv, VStr (snd kv))], r')
      else if Ascii.eqb c "," then
        match members (S fuel) r' with
        | Some (ms, r'') => Some ((fst kv, VStr (snd kv)) :: ms, r'')
        | None => None
        end
      else None
  | EmptyString => None
  end.
Proof.
  rewrite member_text_shape, members_unfold, string_body_escape.
  change (skip_ws (String ":" ?x)) with (String ":" x).
  cbv iota beta. rewrite Ascii.eqb_refl, value_string, string_body_escape.
  reflexivity.
Qed.

Lemma members_of_strings (fields : list (string * string)) (kv : string * string)
    (rest : string) (fuel : nat) :
  length fields + 1 < fuel ->
  members fuel (join_comma (map member_text (kv :: fields)) +:+ String "}" rest) =
  Some (map (fun kv => (fst kv, VStr (snd kv))) (kv :: fields), rest).
Proof.
  revert kv fuel. induction fields as [|kv' fields IH]; intros kv fuel Hfuel.
  - destruct fuel as [|[|fuel]]; [simpl in Hfuel; lia ..|].
    cbn [map join_comma]. rewrite members_string_member. reflexivity.
  - destruct fuel as [|[|fuel]]; [simpl in Hfuel; lia ..|].
    change (join_comma (map member_text (kv :: kv' :: fields)))
      with (member_text kv +:+ "," +:+ join_comma (map member_text (kv' :: fields))).
    rewrite !append_assoc, members_string_member.
    change (skip_ws ("," +:+ ?x)) with (String "," x).
    cbv iota beta.
    change (Ascii.eqb "," "}") with false. change (Ascii.eqb "," ",") with true.
    cbv iota.
    rewrite IH by (simpl in *; lia).
    reflexivity.
Qed.

Lemma length_join_comma (fields : list (string * string)) :
  length fields <= String.length (join_comma (map member_text fields)).
Proof.
  induction fields as [|kv [|kv' fields] IH]; [simpl; lia | simpl; lia |].
  change (join_comma (map member_text (kv :: kv' :: fields)))
    with (member_text kv +:+ "," +:+ join_comma (map member_text (kv' :: fields))).
  rewrite !length_append. simpl in *. lia.
Qed.

(** [JSON.parse(JSON.stringify(o))] gives [o] back when [o] is an
    object of strings. *)
Lemma parse_stringify_strings (fields : list (string * string)) :
  parse (stringify (obj_of_strings fields)) = Some (obj_of_strings fields).
Proof.
  rewrite stringify_obj_of_strings.
  destruct fields as [|kv fields]; [reflexivity|].
  unfold parse.
  change ("{" +:+ ?x) with (String "{" x).
  set (text := join_comma (map member_text (kv :: fields)) +:+ "}").
  assert (Hlen : length fields + 1 < String.length text).
  { subst text. rewrite length_append.
    pose proof (length_join_comma (kv :: fields)). simpl in *. lia. }
  assert (Hmembers : members (S (String.length text)) text
                     = Some (map (fun kv => (fst kv, VStr (snd kv))) (kv :: fields), "")).
  { subst text. apply members_of_strings. lia. }
  assert (Hstart : exists body, text = String dquote body).
  { subst text. destruct fields; cbn [map]; eexists;
      [cbn [join_comma] | change (join_comma (?a :: ?b :: ?l)) with (a +:+ "," +:+ join_comma (b :: l))];
      rewrite ?append_assoc, member_text_shape; reflexivity. }
  destruct Hstart as [body Hbody].
  cbn [String.length value].
  change (skip_ws (String "{" text)) with (String "{" text). cbv iota beta.
  change (Ascii.eqb "{" "{") with true. cbv iota.
  rewrite Hmembers.
  rewrite Hbody.
  reflexivity.
Qed.

Lemma parse_uppercase_T (rest : string) : parse (String "T" rest) = None.
Proof. reflexivity. Qed.

Lemma parse_uppercase_C (rest : string) : parse (String "C" rest) = None.
Proof. reflexivity. Qed.

End JSONFacts.

(** ** The tool list of a started server *)

Lemma registerTools_tools (st : McpServer) :
  tools (registerTools st) = (tools st ++ registered (config st))%list.
Proof.
  unfold registerTools, registered.
  destruct (includes (config st) read); cbn [config push set_tools tools];
    (destruct (includes (config st) prepare); cbn [config push set_tools tools]);
    (destruct (includes (config st) info); cbn [config push set_tools tools]);
    (destruct (includes (config st) transaction && confirmation_required (config st));
     cbn [config push set_tools tools]);
    rewrite <- ?app_assoc; cbn [app]; rewrite ?app_nil_r; reflexivity.
Qed.

Lemma registerTools_config (st : McpServer) :
  config (registerTools st) = config st.
Proof.
  unfold registerTools.
  destruct (includes (config st) read); cbn [config push set_tools tools];
    (destruct (includes (config st) prepare); cbn [config push set_tools tools]);
    (destruct (includes (config st) info); cbn [config push set_tools tools]);
    (destruct (includes (config st) transaction && confirmation_required (config st));
     cbn [config push set_tools tools]);
    reflexivity.
Qed.

Lemma tools_started (st : McpServer) :
  started st -> tools st = registered (config st).
Proof. unfold started. intros ->. now rewrite registerTools_tools. Qed.

Lemma started_start (serverConfig : McpServerConfig) :
  started (start (new_McpServer serverConfig)).
Proof.
  unfold started, start. cbn [tools config set_tools sendLoggingMessage].
  rewrite !registerTools_tools. cbn [tools config set_tools sendLoggingMessage].
  now rewrite registerTools_config.
Qed.

Lemma find_registered (cfg : McpServerConfig) (op : OperationType) (tool : Tool) :
  In (op, tool) registry ->
  find (fun t => String.eqb (name t) (name tool)) (registered cfg) =
  if registers cfg op then Some tool else None.
Proof.
  unfold registry, registered, registers.
  intros [H|[H|[H|[H|[H|[]]]]]]; inversion H; subst op tool; clear H;
    destruct (includes cfg read), (includes cfg prepare), (includes cfg info),
      (includes cfg transaction), (confirmation_required cfg); reflexivity.
Qed.

Lemma registered_filter (cfg : McpServerConfig) :
  registered cfg = map snd (filter (fun entry => registers cfg (fst entry)) registry).
Proof.
  unfold registry, registered, registers. cbn.
  destruct (includes cfg read), (includes cfg prepare), (includes cfg info),
    (includes cfg transaction), (confirmation_required cfg); reflexivity.
Qed.

(** ** Confirming and rejecting *)

Lemma confirmTransaction_present (wallet : Wallet.t) (txId : string)
    (st : McpServer) (tx : PendingTx) :
  pendingConfirmations st !! txId = Some tx ->
  fst (confirmTransaction wallet txId st)
    = settle (wallet (walletCalls st) (Wallet.sendTransaction (params tx)))
  /\ pendingConfirmations (snd (confirmTransaction wallet txId st))
     = <[txId := with_status confirmed tx]> (pendingConfirmations st)
  /\ walletCalls (snd (confirmTransaction wallet txId st))
     = (walletCalls st ++ [Wallet.sendTransaction (params tx)])%list.
Proof.
  intros Hpresent. unfold confirmTransaction, ask. rewrite Hpresent.
  cbn [walletCalls set_pending].
  destruct (wallet (walletCalls st) (Wallet.sendTransaction (params tx)));
    repeat split; reflexivity.
Qed.

Lemma confirmTransaction_absent (wallet : Wallet.t) (txId : string) (st : McpServer) :
  pendingConfirmations st !! txId = None ->
  confirmTransaction wallet txId st
    = (Threw (JsError (not_found txId)), sendLoggingMessage level_error st).
Proof. intros Habsent. unfold confirmTransaction. now rewrite Habsent. Qed.

Lemma rejectTransaction_present (txId : string) (st : McpServer) (tx : PendingTx) :
  pendingConfirmations st !! txId = Some tx ->
  fst (rejectTransaction txId st) = Returned tt
  /\ pendingConfirmations (snd (rejectTransaction txId st))
     = <[txId := with_status rejected tx]> (pendingConfirmations st)
  /\ walletCalls (snd (rejectTransaction txId st)) = walletCalls st.
Proof.
  intros Hpresent. unfold rejectTransaction. rewrite Hpresent.
  repeat split; reflexivity.
Qed.

(** C1, as the specification has it, fails: on the parked transfer, with a
    wallet that accepts every call, the second [confirmTransaction] of the
    same id returns a transaction hash like the first, and the wallet has
    been asked to send the transfer twice. *)
Lemma confirm_twice_sends_twice :
  fst (confirmTransaction Sample.obliging (randomUUID Sample.env) Sample.parked)
    = Returned Sample.hash
  /\ fst (confirmTransaction Sample.obliging (randomUUID Sample.env)
            (snd (confirmTransaction Sample.obliging (randomUUID Sample.env)
                    Sample.parked)))
     = Returned Sample.hash
  /\ walletCalls
       (snd (confirmTransaction Sample.obliging (randomUUID Sample.env)
               (snd (confirmTransaction Sample.obliging (randomUUID Sample.env)
                       Sample.parked))))
     = [Wallet.sendTransaction Sample.transfer;
        Wallet.sendTransaction Sample.transfer].
Proof. vm_compute. repeat split; reflexivity. Qed.

(** C1, amended: [confirmTransaction] called twice on an id that is in the
    map never fails on the entry's status.  Each call sets the status to
    [confirmed] and asks the wallet to send the stored parameters, so the
    wallet is asked twice, and each call returns or rethrows what its own
    wallet call produced. *)
Theorem confirm_twice_asks_wallet_twice (wallet : Wallet.t) (txId : string)
    (st : McpServer) (tx : PendingTx) :
  pendingConfirmations st !! txId = Some tx ->
  let send := Wallet.sendTransaction (params tx) in
  let first := confirmTransaction wallet txId st in
  let second := confirmTransaction wallet txId (snd first) in
  fst first = settle (wallet (walletCalls st) send)
  /\ fst second = settle (wallet (walletCalls st ++ [send])%list send)
  /\ walletCalls (snd second) = (walletCalls st ++ [send; send])%list
  /\ pendingConfirmations (snd second) !! txId = Some (with_status confirmed tx).
Proof.
  intros Hpresent send first second.
  destruct (confirmTransaction_present wallet txId st tx Hpresent)
    as (Hout1 & Hmap1 & Hcalls1).
  fold first in Hout1, Hmap1, Hcalls1.
  assert (Hpresent1 : pendingConfirmations (snd first) !! txId
                      = Some (with_status confirmed tx)).
  { rewrite Hmap1. apply lookup_insert_eq. }
  destruct (confirmTransaction_present wallet txId (snd first) _ Hpresent1)
    as (Hout2 & Hmap2 & Hcalls2).
  fold second in Hout2, Hmap2, Hcalls2.
  cbn [with_status params] in Hout2, Hcalls2.
  repeat split.
  - exact Hout1.
  - rewrite Hout2, Hcalls1. reflexivity.
  - rewrite Hcalls2, Hcalls1, <- app_assoc. reflexivity.
  - rewrite Hmap2. apply lookup_insert_eq.
Qed.

Lemma confirm_twice_asks_wallet_twice_witness :
  fst (confirmTransaction Sample.obliging (randomUUID Sample.env)
         (snd (confirmTransaction Sample.obliging (randomUUID Sample.env)
                 Sample.parked)))
  = settle (Sample.obliging
              (walletCalls Sample.parked ++ [Wallet.sendTransaction Sample.transfer])%list
              (Wallet.sendTransaction Sample.transfer)).
Proof.
  refine (proj1 (proj2 (confirm_twice_asks_wallet_twice Sample.obliging
                          (randomUUID Sample.env) Sample.parked
                          {| params := Sample.transfer; status := pending;
                             createdAt := Date_now Sample.env |} _))).
  vm_compute. reflexivity.
Defined.

(** C2, as the specification has it, fails: after the parked transfer has
    been confirmed, [rejectTransaction] on the same id returns normally and
    the entry's status goes from [confirmed] to [rejected]. *)
Lemma reject_after_confirm_succeeds :
  status <$> (pendingConfirmations
                (snd (confirmTransaction Sample.obliging (randomUUID Sample.env)
                        Sample.parked)) !! randomUUID Sample.env)
    = Some confirmed
  /\ fst (rejectTransaction (randomUUID Sample.env)
            (snd (confirmTransaction Sample.obliging (randomUUID Sample.env)
                    Sample.parked)))
     = Returned tt
  /\ status <$> (pendingConfirmations
                   (snd (rejectTransaction (randomUUID Sample.env)
                           (snd (confirmTransaction Sample.obliging
                                   (randomUUID Sample.env) Sample.parked))))
                   !! randomUUID Sample.env)
     = Some rejected.
Proof. vm_compute. repeat split; reflexivity. Qed.

(** C2, amended: [rejectTransaction] on an id that is in the map returns
    normally whatever the entry's status, terminal or not; it sets the
    status to [rejected], keeps the parameters and the creation time, and
    does not touch the wallet. *)
Theorem reject_ignores_status (txId : string) (st : McpServer) (tx : PendingTx) :
  pendingConfirmations st !! txId = Some tx ->
  fst (rejectTransaction txId st) = Returned tt
  /\ pendingConfirmations (snd (rejectTransaction txId st)) !! txId
     = Some {| params := params tx; status := rejected; createdAt := createdAt tx |}
  /\ walletCalls (snd (rejectTransaction txId st)) = walletCalls st.
Proof.
  intros Hpresent.
  destruct (rejectTransaction_present txId st tx Hpresent) as (Hout & Hmap & Hcalls).
  repeat split; [exact Hout | | exact Hcalls].
  rewrite Hmap. apply lookup_insert_eq.
Qed.

Lemma reject_ignores_status_witness :
  fst (rejectTransaction (randomUUID Sample.env)
         (snd (confirmTransaction Sample.obliging (randomUUID Sample.env)
                 Sample.parked)))
  = Returned tt.
Proof.
  refine (proj1 (reject_ignores_status (randomUUID Sample.env)
                   (snd (confirmTransaction Sample.obliging (randomUUID Sample.env)
                           Sample.parked))
                   {| params := Sample.transfer; status := confirmed;
                      createdAt := Date_now Sample.env |} _)).
  vm_compute. reflexivity.
Defined.

(** C4, as the specification has it, fails: the parked transfer was created
    at [Date.now() = 1700000000000]; a day later, with an expiry window of a
    minute, confirming it still sends it and rejecting it still succeeds. *)
Lemma stale_entry_still_resolves :
  createdAt <$> (pendingConfirmations Sample.parked !! randomUUID Sample.env)
    = Some 1700000000000%Z
  /\ (1700000000000 + 60000 < 1700086400000)%Z
  /\ fst (confirmTransaction Sample.obliging (randomUUID Sample.env) Sample.parked)
     = Returned Sample.hash
  /\ fst (rejectTransaction (randomUUID Sample.env) Sample.parked) = Returned tt.
Proof. vm_compute. repeat split; reflexivity. Qed.

(** C4, amended: the age of an entry is never consulted.  A pending entry
    that is in the map, however long ago it was created, is confirmed (the
    wallet is asked to send it) and rejected like a fresh one: neither call
    fails with the not-found error. *)
Theorem stale_entry_is_found (wallet : Wallet.t) (txId : string)
    (st : McpServer) (tx : PendingTx) (now window : Z) :
  pendingConfirmations st !! txId = Some tx ->
  status tx = pending ->
  (createdAt tx + window < now)%Z ->
  fst (confirmTransaction wallet txId st)
    = settle (wallet (walletCalls st) (Wallet.sendTransaction (params tx)))
  /\ fst (rejectTransaction txId st) = Returned tt.
Proof.
  intros Hpresent _ _. split.
  - apply (confirmTransaction_present wallet txId st tx Hpresent).
  - apply (rejectTransaction_present txId st tx Hpresent).
Qed.

Lemma stale_entry_is_found_witness :
  fst (rejectTransaction (randomUUID Sample.env) Sample.parked) = Returned tt.
Proof.
  refine (proj2 (stale_entry_is_found Sample.obliging (randomUUID Sample.env)
                   Sample.parked
                   {| params := Sample.transfer; status := pending;
                      createdAt := Date_now Sample.env |}
                   1700086400000%Z 60000%Z _ _ _)).
  - vm_compute. reflexivity.
  - reflexivity.
  - vm_compute. reflexivity.
Defined.

(** C7, as the specification has it, fails: the status [confirmed] that a
    failed send leaves behind is not terminal.  On the parked transfer, with
    a wallet whose first call fails, [confirmTransaction] throws the
    wallet's failure and leaves the entry [confirmed]; the same entry,
    without a new tool call, is then confirmed again, the wallet is asked to
    send the transfer a second time and the call returns the hash. *)
Lemma failed_send_is_sent_again :
  fst (confirmTransaction Sample.flaky (randomUUID Sample.env) Sample.parked)
    = Threw (JsError "insufficient funds")
  /\ pendingConfirmations
       (snd (confirmTransaction Sample.flaky (randomUUID Sample.env) Sample.parked))
       !! randomUUID Sample.env
     = Some {| params := Sample.transfer; status := confirmed;
               createdAt := Date_now Sample.env |}
  /\ fst (confirmTransaction Sample.flaky (randomUUID Sample.env)
            (snd (confirmTransaction Sample.flaky (randomUUID Sample.env)
                    Sample.parked)))
     = Returned Sample.hash
  /\ walletCalls
       (snd (confirmTransaction Sample.flaky (randomUUID Sample.env)
               (snd (confirmTransaction Sample.flaky (randomUUID Sample.env)
                       Sample.parked))))
     = [Wallet.sendTransaction Sample.transfer;
        Wallet.sendTransaction Sample.transfer].
Proof. vm_compute. repeat split; reflexivity. Qed.

(** C7, amended: when the wallet call made by [confirmTransaction] fails,
    the caller gets that very failure, and the entry stays in the map with
    status [confirmed], its parameters and its creation time: it is not set
    back to [pending].  That status does not close the entry.  A second
    [confirmTransaction] of the id is not refused: it asks the wallet to
    send the stored parameters again and returns or rethrows what the wallet
    then produces.  A [rejectTransaction] of the id is not refused either:
    it returns and sets the status to [rejected]. *)
Theorem failed_send_can_be_retried (wallet : Wallet.t) (txId : string)
    (st : McpServer) (tx : PendingTx) (message : string) :
  pendingConfirmations st !! txId = Some tx ->
  wallet (walletCalls st) (Wallet.sendTransaction (params tx))
    = Wallet.Rejected message ->
  fst (confirmTransaction wallet txId st) = Threw (JsError message)
  /\ pendingConfirmations (snd (confirmTransaction wallet txId st)) !! txId
     = Some {| params := params tx; status := confirmed; createdAt := createdAt tx |}
  /\ walletCalls (snd (confirmTransaction wallet txId st))
     = (walletCalls st ++ [Wallet.sendTransaction (params tx)])%list
  /\ fst (confirmTransaction wallet txId (snd (confirmTransaction wallet txId st)))
     = match wallet (walletCalls st ++ [Wallet.sendTransaction (params tx)])%list
               (Wallet.sendTransaction (params tx)) with
       | Wallet.Resolved sent => Returned sent
       | Wallet.Rejected again => Threw (JsError again)
       end
  /\ walletCalls
       (snd (confirmTransaction wallet txId (snd (confirmTransaction wallet txId st))))
     = (walletCalls st ++ [Wallet.sendTransaction (params tx);
                           Wallet.sendTransaction (params tx)])%list
  /\ fst (rejectTransaction txId (snd (confirmTransaction wallet txId st)))
     = Returned tt
  /\ pendingConfirmations
       (snd (rejectTransaction txId (snd (confirmTransaction wallet txId st))))
       !! txId
     = Some {| params := params tx; status := rejected; createdAt := createdAt tx |}.
Proof.
  intros Hpresent Hfails.
  destruct (confirmTransaction_present wallet txId st tx Hpresent)
    as (Hout & Hmap & Hcalls).
  assert (Hentry : pendingConfirmations (snd (confirmTransaction wallet txId st))
                   !! txId = Some (with_status confirmed tx))
    by (rewrite Hmap; apply lookup_insert_eq).
  destruct (confirmTransaction_present wallet txId _ _ Hentry)
    as (Hout2 & _ & Hcalls2).
  destruct (rejectTransaction_present txId _ _ Hentry) as (Hout3 & Hmap3 & _).
  cbn [params with_status] in Hout2, Hcalls2.
  repeat split.
  - rewrite Hout, Hfails. reflexivity.
  - exact Hentry.
  - exact Hcalls.
  - rewrite Hout2, Hcalls. unfold settle.
    now destruct (wallet _ _).
  - rewrite Hcalls2, Hcalls, <- app_assoc. reflexivity.
  - exact Hout3.
  - rewrite Hmap3. apply lookup_insert_eq.
Qed.

Lemma failed_send_can_be_retried_witness :
  fst (confirmTransaction Sample.broke (randomUUID Sample.env) Sample.parked)
  = Threw (JsError "insufficient funds").
Proof.
  refine (proj1 (failed_send_can_be_retried Sample.broke (randomUUID Sample.env)
                   Sample.parked
                   {| params := Sample.transfer; status := pending;
                      createdAt := Date_now Sample.env |}
                   "insufficient funds" _ _)).
  - vm_compute. reflexivity.
  - reflexivity.
Defined.

(** ** Dispatch *)

Lemma callTool_registered (env : Env) (wallet : Wallet.t) (st : McpServer)
    (op : OperationType) (tool : Tool) (args : JsValue) :
  started st ->
  In (op, tool) registry ->
  registers (config st) op = true ->
  callTool env wallet {| tool_name := name tool; arguments := args |} st =
  match run_handler env wallet (handler tool) args st with
  | (Returned value, st1) => (result value, sendLoggingMessage level_info st1)
  | (Threw e, st1) => on_error e st1
  end.
Proof.
  intros Hstarted Hin Hregisters. unfold callTool. cbn [tool_name arguments].
  rewrite (tools_started st Hstarted), (find_registered _ op tool Hin), Hregisters.
  reflexivity.
Qed.

Lemma on_error_not_found (nm : string) (st : McpServer) :
  on_error (JsError ("Tool " +:+ nm +:+ " not found")) st =
  (error (tool_error ("Tool " +:+ nm +:+ " not found")),
   sendLoggingMessage level_error st).
Proof.
  unfold on_error.
  change ("Tool " +:+ nm +:+ " not found")
    with (String "T" ("ool " +:+ nm +:+ " not found")) at 1.
  rewrite JSONFacts.parse_uppercase_T. reflexivity.
Qed.

Lemma callTool_unregistered (env : Env) (wallet : Wallet.t) (st : McpServer)
    (op : OperationType) (tool : Tool) (args : JsValue) :
  started st ->
  In (op, tool) registry ->
  registers (config st) op = false ->
  callTool env wallet {| tool_name := name tool; arguments := args |} st =
  (error (tool_error ("Tool " +:+ name tool +:+ " not found")),
   sendLoggingMessage level_error (sendLoggingMessage level_error st)).
Proof.
  intros Hstarted Hin Hregisters. unfold callTool. cbn [tool_name arguments].
  rewrite (tools_started st Hstarted), (find_registered _ op tool Hin), Hregisters.
  apply on_error_not_found.
Qed.

Lemma on_error_need_confirmation (txId : string) (st : McpServer) :
  on_error (JsError (JSON.stringify (need_confirmation txId))) st =
  (error (need_confirmation txId), sendLoggingMessage level_info st).
Proof.
  unfold on_error, need_confirmation.
  rewrite JSONFacts.parse_stringify_strings. reflexivity.
Qed.

(** ** Parameters that match a schema *)

Lemma own_property_In (ms : list (string * JsValue)) (key : string) (v : JsValue) :
  Js.own_property ms key = Some v -> In (key, v) ms.
Proof.
  induction ms as [|[k x] ms IH]; cbn [Js.own_property]; [discriminate|].
  destruct (Js.own_property ms key) as [w|].
  - intros [= ->]. right. now apply IH.
  - destruct (String.eqb k key) eqn:Hk; [|discriminate].
    intros [= ->]. apply String.eqb_eq in Hk. subst k. now left.
Qed.

(** A required property declared with type [string] holds a string. *)
Lemma conforms_required_string (schema property : JsValue) (key : string)
    (args : JsValue) :
  Schema.conforms schema args = true ->
  In (VStr key) (Schema.elements_of (Js.get schema "required")) ->
  Js.own_property (Schema.members_of (Js.get schema "properties")) key
    = Some property ->
  Js.get property "type" = Some (VStr "string") ->
  exists s, Js.get args key = Some (VStr s).
Proof.
  intros Hconforms Hrequired Hproperty Htype.
  destruct args as [| | | | | |given]; try discriminate Hconforms.
  cbn [Schema.conforms] in Hconforms.
  apply andb_prop in Hconforms as [Hpresent Hfields].
  rewrite forallb_forall in Hpresent. specialize (Hpresent _ Hrequired).
  cbn beta iota in Hpresent.
  destruct (Js.own_property given key) as [v|] eqn:Hv; [|discriminate].
  rewrite forallb_forall in Hfields.
  specialize (Hfields _ (own_property_In _ _ _ Hv)). cbn [fst snd] in Hfields.
  rewrite Hproperty in Hfields. unfold Schema.property_ok in Hfields.
  rewrite Htype in Hfields. cbn in Hfields.
  destruct v; try discriminate Hfields.
  eexists. cbn [Js.get]. rewrite Hv. reflexivity.
Qed.

Lemma conforms_transfer_to (args : JsValue) :
  Schema.conforms transaction_parameters args = true ->
  exists s, Js.get args "to" = Some (VStr s).
Proof.
  intros Hconforms.
  eapply (conforms_required_string transaction_parameters _ "to" args Hconforms).
  - cbn. left. reflexivity.
  - reflexivity.
  - reflexivity.
Qed.

Lemma conforms_token (args : JsValue) :
  Schema.conforms (inputSchema getTokenBalanceTool) args = true ->
  exists s, Js.get args "token" = Some (VStr s).
Proof.
  intros Hconforms.
  eapply (conforms_required_string (inputSchema getTokenBalanceTool) _ "token"
            args Hconforms).
  - cbn. left. reflexivity.
  - reflexivity.
  - reflexivity.
Qed.

Lemma get_after_get (args : JsValue) (key other : string) (v : JsValue) :
  Js.get args key = Some v -> exists w, Js.get args other = Some w.
Proof. destruct args; cbn [Js.get]; try discriminate; eauto. Qed.

(** ** What the catch clause answers *)

Lemma on_error_response (e : Thrown) (st st' : McpServer) :
  fst (on_error e st) = fst (on_error e st').
Proof.
  unfold on_error. destruct e as [message|]; [|reflexivity].
  destruct (JSON.parse message); [|reflexivity].
  destruct (interpolate _ _); reflexivity.
Qed.

Lemma on_error_pending (e : Thrown) (st : McpServer) :
  pendingConfirmations (snd (on_error e st)) = pendingConfirmations st.
Proof.
  unfold on_error. destruct e as [message|]; [|reflexivity].
  destruct (JSON.parse message); [|reflexivity].
  destruct (interpolate _ _); reflexivity.
Qed.

Lemma on_error_calls (e : Thrown) (st : McpServer) :
  walletCalls (snd (on_error e st)) = walletCalls st.
Proof.
  unfold on_error. destruct e as [message|]; [|reflexivity].
  destruct (JSON.parse message); [|reflexivity].
  destruct (interpolate _ _); reflexivity.
Qed.

Lemma on_error_cases (message : string) (st : McpServer) :
  fst (on_error (JsError message) st)
  = match JSON.parse message with
    | Some parsedError =>
        if structured parsedError then error parsedError
        else error (VObj [("code", VStr "TOOL_ERROR"); ("message", VStr message)])
    | None => error (VObj [("code", VStr "TOOL_ERROR"); ("message", VStr message)])
    end.
Proof.
  unfold on_error, structured, interpolate.
  destruct (JSON.parse message) as [parsedError|]; [|reflexivity].
  destruct (Js.get parsedError "message") as [m|]; [|reflexivity].
  destruct (Js.stringifiable m); reflexivity.
Qed.

Lemma on_error_type_error (rest : string) (st : McpServer) :
  fst (on_error (JsError (String "C" rest)) st)
  = error (VObj [("code", VStr "TOOL_ERROR"); ("message", VStr (String "C" rest))]).
Proof. rewrite on_error_cases, JSONFacts.parse_uppercase_C. reflexivity. Qed.

Lemma need_confirmation_literal (txId : string) :
  need_confirmation txId
  = VObj [("code", VStr "NEED_CONFIRMATION");
          ("message",
            VStr (JSON.stringify
                    (VObj [("zh", VStr ("交易等待用户确认 (ID: " +:+ txId +:+ ")"));
                           ("en", VStr ("Transaction pending confirmation (ID: "
                                        +:+ txId +:+ ")"))])))].
Proof. reflexivity. Qed.

(** ** Calls to the tools *)

(** C3, as the specification has it, fails: [wallet_signTransaction] called
    with an empty object, which lacks both required fields, or with an
    address of three hex digits, is answered with a result, and the wallet
    has been asked to sign those very parameters; [wallet_sendTransaction]
    called with the amount [abc] is parked for confirmation like a valid
    call. *)
Lemma invalid_parameters_reach_wallet :
  Schema.conforms (inputSchema signTransactionTool) (VObj []) = false
  /\ callTool Sample.env Sample.obliging
       {| tool_name := "wallet_signTransaction"; arguments := VObj [] |}
       (Sample.server true)
     = (result (VObj [("signedTransaction", VStr Sample.hash)]),
        snd (callTool Sample.env Sample.obliging
               {| tool_name := "wallet_signTransaction"; arguments := VObj [] |}
               (Sample.server true)))
  /\ walletCalls
       (snd (callTool Sample.env Sample.obliging
               {| tool_name := "wallet_signTransaction"; arguments := VObj [] |}
               (Sample.server true)))
     = [Wallet.signTransaction (VObj [])]
  /\ Schema.conforms (inputSchema signTransactionTool)
       (obj_of_strings [("to", "0x123"); ("value", "1")]) = false
  /\ walletCalls
       (snd (callTool Sample.env Sample.obliging
               {| tool_name := "wallet_signTransaction";
                  arguments := obj_of_strings [("to", "0x123"); ("value", "1")] |}
               (Sample.server true)))
     = [Wallet.signTransaction (obj_of_strings [("to", "0x123"); ("value", "1")])]
  /\ Schema.conforms (inputSchema sendTransactionTool)
       (obj_of_strings [("to", Sample.recipient); ("value", "abc")]) = false
  /\ fst (callTool Sample.env Sample.obliging
            {| tool_name := "wallet_sendTransaction";
               arguments := obj_of_strings [("to", Sample.recipient); ("value", "abc")] |}
            (Sample.server true))
     = error (need_confirmation (randomUUID Sample.env)).
Proof. vm_compute. repeat split; reflexivity. Qed.

(** C3, amended: the call handler does not check parameters against the
    input schema, and no response of its own reports invalid parameters.
    On a started server with the prepare tier allowed, every call of
    [wallet_signTransaction], whatever its parameters, asks the wallet to
    sign exactly those parameters and leaves the pending map as it was, and
    the response follows from the wallet's outcome alone.  If the wallet
    answers, the response is the result holding the signed transaction,
    unless the log line cannot render [params.to] (the parameters are
    [undefined] or [null], or [to] is an object or array that does not
    convert to a string): then it is a [TOOL_ERROR] with the TypeError's
    message.  If the wallet fails, the response is what the catch clause
    makes of the wallet's failure: the parsed message if it is JSON text of
    the structured kind, a [TOOL_ERROR] with the wallet's message
    otherwise. *)
Theorem sign_parameters_unchecked (env : Env) (wallet : Wallet.t)
    (st : McpServer) (args : JsValue) :
  started st ->
  includes (config st) prepare = true ->
  walletCalls
    (snd (callTool env wallet
            {| tool_name := "wallet_signTransaction"; arguments := args |} st))
    = (walletCalls st ++ [Wallet.signTransaction args])%list
  /\ pendingConfirmations
       (snd (callTool env wallet
               {| tool_name := "wallet_signTransaction"; arguments := args |} st))
     = pendingConfirmations st
  /\ fst (callTool env wallet
            {| tool_name := "wallet_signTransaction"; arguments := args |} st)
     = match wallet (walletCalls st) (Wallet.signTransaction args) with
       | Wallet.Resolved signedTx =>
           match Js.get args "to" with
           | Some to =>
               if Js.stringifiable to
               then result (VObj [("signedTransaction", VStr signedTx)])
               else error (VObj [("code", VStr "TOOL_ERROR");
                                 ("message",
                                   VStr "Cannot convert object to primitive value")])
           | None =>
               error (VObj [("code", VStr "TOOL_ERROR");
                            ("message", VStr (cannot_read args "to"))])
           end
       | Wallet.Rejected message =>
           match JSON.parse message with
           | Some parsedError =>
               if structured parsedError then error parsedError
               else error (VObj [("code", VStr "TOOL_ERROR");
                                 ("message", VStr message)])
           | None =>
               error (VObj [("code", VStr "TOOL_ERROR"); ("message", VStr message)])
           end
       end.
Proof.
  intros Hstarted Hprepare.
  pose proof (callTool_registered env wallet st prepare signTransactionTool args
                Hstarted) as Hcall.
  cbn [name signTransactionTool] in Hcall.
  rewrite Hcall; [|cbn; tauto | exact Hprepare]. clear Hcall.
  cbn [handler signTransactionTool run_handler]. unfold ask.
  destruct (wallet (walletCalls st) (Wallet.signTransaction args)) as [signedTx|message].
  - unfold interpolate. destruct (Js.get args "to") as [to|].
    + destruct (Js.stringifiable to).
      * repeat split.
      * rewrite on_error_calls, on_error_pending.
        split; [reflexivity|]. split; [reflexivity|].
        apply on_error_type_error.
    + rewrite on_error_calls, on_error_pending.
      split; [reflexivity|]. split; [reflexivity|].
      apply on_error_type_error.
  - rewrite on_error_calls, on_error_pending.
    split; [reflexivity|]. split; [reflexivity|].
    apply on_error_cases.
Qed.

Lemma sign_parameters_unchecked_witness :
  walletCalls
    (snd (callTool Sample.env Sample.obliging
            {| tool_name := "wallet_signTransaction"; arguments := VObj [] |}
            (Sample.server true)))
  = (walletCalls (Sample.server true) ++ [Wallet.signTransaction (VObj [])])%list.
Proof.
  refine (proj1 (sign_parameters_unchecked Sample.env Sample.obliging
                   (Sample.server true) (VObj []) _ _)).
  - vm_compute. reflexivity.
  - reflexivity.
Defined.

(** C5: on a started server that allows the transaction tier and requires
    confirmation, a call of [wallet_sendTransaction] does not reach the
    wallet.  The response is the error object whose code is
    [NEED_CONFIRMATION] and whose message is JSON text that reads back as
    the object with a Chinese and an English sentence, each spelling out the
    fresh id; and the pending map holds, under that id, the parameters with
    status [pending] and the time of the call.  This holds for every
    parameter value, and so for every valid one. *)
Theorem send_is_parked (env : Env) (wallet : Wallet.t)
    (st : McpServer) (args : JsValue) :
  started st ->
  includes (config st) transaction = true ->
  confirmation_required (config st) = true ->
  (exists message : string,
     fst (callTool env wallet
            {| tool_name := "wallet_sendTransaction"; arguments := args |} st)
     = error (VObj [("code", VStr "NEED_CONFIRMATION"); ("message", VStr message)])
     /\ JSON.parse message
        = Some (VObj [("zh", VStr ("交易等待用户确认 (ID: "
                                   +:+ randomUUID env +:+ ")"));
                      ("en", VStr ("Transaction pending confirmation (ID: "
                                   +:+ randomUUID env +:+ ")"))]))
  /\ pendingConfirmations
       (snd (callTool env wallet
               {| tool_name := "wallet_sendTransaction"; arguments := args |} st))
       !! randomUUID env
     = Some {| params := args; status := pending; createdAt := Date_now env |}
  /\ walletCalls
       (snd (callTool env wallet
               {| tool_name := "wallet_sendTransaction"; arguments := args |} st))
     = walletCalls st.
Proof.
  intros Hstarted Hallowed Hconfirm.
  pose proof (callTool_registered env wallet st transaction sendTransactionTool
                args Hstarted) as Hcall.
  cbn [name sendTransactionTool] in Hcall.
  rewrite Hcall; [|cbn; tauto | cbn; now rewrite Hallowed, Hconfirm]. clear Hcall.
  cbn [handler sendTransactionTool run_handler]. rewrite Hconfirm.
  rewrite on_error_need_confirmation.
  split; [|split].
  - cbn [fst]. rewrite need_confirmation_literal. eexists. split; [reflexivity|].
    apply (JSONFacts.parse_stringify_strings
             [("zh", "交易等待用户确认 (ID: " +:+ randomUUID env +:+ ")");
              ("en", "Transaction pending confirmation (ID: "
                     +:+ randomUUID env +:+ ")")]).
  - cbn [snd pendingConfirmations sendLoggingMessage set_pending].
    apply lookup_insert_eq.
  - reflexivity.
Qed.

Lemma send_is_parked_witness :
  pendingConfirmations
    (snd (callTool Sample.env Sample.obliging
            {| tool_name := "wallet_sendTransaction"; arguments := Sample.transfer |}
            (Sample.server true)))
    !! randomUUID Sample.env
  = Some {| params := Sample.transfer; status := pending;
            createdAt := Date_now Sample.env |}.
Proof.
  refine (proj1 (proj2 (send_is_parked Sample.env Sample.obliging
                          (Sample.server true) Sample.transfer _ _ _))).
  - vm_compute. reflexivity.
  - reflexivity.
  - reflexivity.
Defined.

(** C6, as the specification has it, fails: with all four tiers allowed and
    [requireConfirmation] false, a valid call of [wallet_sendTransaction] is
    answered with the error of an unknown tool and the wallet is not
    asked. *)
Lemma send_without_confirmation_is_unknown :
  includes (config (Sample.server false)) transaction = true
  /\ confirmation_required (config (Sample.server false)) = false
  /\ Schema.conforms (inputSchema sendTransactionTool) Sample.transfer = true
  /\ fst (callTool Sample.env Sample.obliging
            {| tool_name := "wallet_sendTransaction"; arguments := Sample.transfer |}
            (Sample.server false))
     = error (tool_error "Tool wallet_sendTransaction not found")
  /\ walletCalls
       (snd (callTool Sample.env Sample.obliging
               {| tool_name := "wallet_sendTransaction";
                  arguments := Sample.transfer |}
               (Sample.server false)))
     = [].
Proof. vm_compute. repeat split; reflexivity. Qed.

(** C6, amended: [registerTools] registers [wallet_sendTransaction] only
    when the transaction tier is allowed and confirmation is required.  On a
    started server whose [requireConfirmation] is false, whatever tiers are
    allowed, a call of [wallet_sendTransaction] is answered with the
    [TOOL_ERROR] of a tool that is not found; the wallet is not asked and
    the pending map is unchanged. *)
Theorem send_unregistered_without_confirmation (env : Env) (wallet : Wallet.t)
    (st : McpServer) (args : JsValue) :
  started st ->
  confirmation_required (config st) = false ->
  fst (callTool env wallet
         {| tool_name := "wallet_sendTransaction"; arguments := args |} st)
    = error (tool_error "Tool wallet_sendTransaction not found")
  /\ walletCalls
       (snd (callTool env wallet
               {| tool_name := "wallet_sendTransaction"; arguments := args |} st))
     = walletCalls st
  /\ pendingConfirmations
       (snd (callTool env wallet
               {| tool_name := "wallet_sendTransaction"; arguments := args |} st))
     = pendingConfirmations st.
Proof.
  intros Hstarted Hconfirm.
  pose proof (callTool_unregistered env wallet st transaction sendTransactionTool
                args Hstarted) as Hcall.
  cbn [name sendTransactionTool] in Hcall.
  rewrite Hcall; [|cbn; tauto | cbn; rewrite Hconfirm; apply andb_false_r].
  repeat split.
Qed.

Lemma send_unregistered_without_confirmation_witness :
  fst (callTool Sample.env Sample.obliging
         {| tool_name := "wallet_sendTransaction"; arguments := Sample.transfer |}
         (Sample.server false))
  = error (tool_error "Tool wallet_sendTransaction not found").
Proof.
  refine (proj1 (send_unregistered_without_confirmation Sample.env Sample.obliging
                   (Sample.server false) Sample.transfer _ _)).
  - vm_compute. reflexivity.
  - reflexivity.
Defined.

(** What a handler of the read, prepare and info tiers does with
    parameters that match its schema: one wallet call, and its answer as the
    result or its failure rethrown. *)
Lemma run_handler_ungated (env : Env) (wallet : Wallet.t) (st : McpServer)
    (op : OperationType) (tool : Tool) (args : JsValue) :
  In (op, tool) registry ->
  op <> transaction ->
  Schema.conforms (inputSchema tool) args = true ->
  run_handler env wallet (handler tool) args st
  = match ask wallet (capability (handler tool) args) st with
    | (Wallet.Resolved value, st1) =>
        (Returned (tool_result (handler tool) value),
         sendLoggingMessage level_info st1)
    | (Wallet.Rejected message, st1) =>
        (Threw (JsError message), sendLoggingMessage level_error st1)
    end.
Proof.
  intros Hin Hop Hvalid. unfold registry in Hin.
  destruct Hin as [H|[H|[H|[H|[H|[]]]]]]; inversion H; subst op tool; clear H;
    try contradiction;
    cbn [handler getAddressTool getBalanceTool signTransactionTool
           getTokenBalanceTool run_handler capability tool_result].
  - reflexivity.
  - reflexivity.
  - destruct (conforms_transfer_to args Hvalid) as [to Hto].
    rewrite Hto. cbn [interpolate Js.stringifiable]. reflexivity.
  - destruct (conforms_token args Hvalid) as [token Htoken].
    destruct (get_after_get args "token" "decimals" _ Htoken) as [decimals Hdecimals].
    rewrite Htoken, Hdecimals. cbn [interpolate Js.stringifiable default].
    reflexivity.
Qed.

(** C8, as the specification has it, fails: the response of a read tool can
    be the confirmation request.  With a wallet whose failure carries the
    text of such a request, a valid call of [wallet_getBalance] is answered
    with the error object of code [NEED_CONFIRMATION], the very response a
    call of [wallet_sendTransaction] that drew the id [none] gets; no
    pending entry stands behind it. *)
Lemma read_tool_answers_like_send :
  Schema.conforms (inputSchema getBalanceTool) (VObj []) = true
  /\ fst (callTool Sample.env Sample.mimic
            {| tool_name := "wallet_getBalance"; arguments := VObj [] |}
            (Sample.server true))
     = fst (callTool {| randomUUID := "none"; Date_now := Date_now Sample.env |}
              Sample.mimic
              {| tool_name := "wallet_sendTransaction"; arguments := Sample.transfer |}
              (Sample.server true))
  /\ (exists message,
        fst (callTool Sample.env Sample.mimic
               {| tool_name := "wallet_getBalance"; arguments := VObj [] |}
               (Sample.server true))
        = error (VObj [("code", VStr "NEED_CONFIRMATION");
                       ("message", VStr message)]))
  /\ pendingConfirmations
       (snd (callTool Sample.env Sample.mimic
               {| tool_name := "wallet_getBalance"; arguments := VObj [] |}
               (Sample.server true)))
     = ∅.
Proof.
  split; [reflexivity|]. split; [vm_compute; reflexivity|].
  split; [eexists; vm_compute; reflexivity|]. reflexivity.
Qed.

(** C8, amended: on a started server, a call with valid parameters to a
    tool of the read, prepare or info tier, the tier being allowed, never
    creates a pending entry and asks the wallet exactly once, for the
    capability of that tool.  If the wallet answers, the response is the
    result built from its answer.  If the wallet fails, the response is what
    the catch clause makes of the failure's message: the parsed message if
    it is JSON text of the structured kind, a [TOOL_ERROR] with the message
    otherwise.  So the handler never raises the confirmation request itself,
    and a response with code [NEED_CONFIRMATION] arises only from a wallet
    failure whose message is the JSON text of that response. *)
Theorem ungated_tiers_run_directly (env : Env) (wallet : Wallet.t)
    (st : McpServer) (op : OperationType) (tool : Tool) (args : JsValue) :
  started st ->
  In (op, tool) registry ->
  op <> transaction ->
  includes (config st) op = true ->
  Schema.conforms (inputSchema tool) args = true ->
  pendingConfirmations
    (snd (callTool env wallet {| tool_name := name tool; arguments := args |} st))
    = pendingConfirmations st
  /\ walletCalls
       (snd (callTool env wallet {| tool_name := name tool; arguments := args |} st))
     = (walletCalls st ++ [capability (handler tool) args])%list
  /\ fst (run_handler env wallet (handler tool) args st)
     = match wallet (walletCalls st) (capability (handler tool) args) with
       | Wallet.Resolved value => Returned (tool_result (handler tool) value)
       | Wallet.Rejected message => Threw (JsError message)
       end
  /\ fst (callTool env wallet {| tool_name := name tool; arguments := args |} st)
     = match wallet (walletCalls st) (capability (handler tool) args) with
       | Wallet.Resolved value => result (tool_result (handler tool) value)
       | Wallet.Rejected message =>
           match JSON.parse message with
           | Some parsedError =>
               if structured parsedError then error parsedError
               else error (VObj [("code", VStr "TOOL_ERROR");
                                 ("message", VStr message)])
           | None =>
               error (VObj [("code", VStr "TOOL_ERROR"); ("message", VStr message)])
           end
       end
  /\ (forall response : JsValue,
        fst (callTool env wallet {| tool_name := name tool; arguments := args |} st)
        = error response ->
        Js.get response "code" = Some (VStr "NEED_CONFIRMATION") ->
        exists message,
          wallet (walletCalls st) (capability (handler tool) args)
          = Wallet.Rejected message
          /\ JSON.parse message = Some response).
Proof.
  intros Hstarted Hin Hop Hallowed Hvalid.
  rewrite (callTool_registered env wallet st op tool args Hstarted Hin);
    [|destruct op; try exact Hallowed; contradiction].
  rewrite (run_handler_ungated env wallet st op tool args Hin Hop Hvalid).
  unfold ask.
  destruct (wallet (walletCalls st) (capability (handler tool) args))
    as [value|message].
  - repeat split. intros response [=].
  - rewrite on_error_pending, on_error_calls, on_error_cases.
    repeat split.
    intros response Hresponse Hcode. exists message. split; [reflexivity|].
    destruct (JSON.parse message) as [parsedError|].
    + destruct (structured parsedError).
      * now injection Hresponse as ->.
      * injection Hresponse as <-. discriminate Hcode.
    + injection Hresponse as <-. discriminate Hcode.
Qed.

Lemma ungated_tiers_run_directly_witness :
  pendingConfirmations
    (snd (callTool Sample.env Sample.obliging
            {| tool_name := name signTransactionTool; arguments := Sample.transfer |}
            Sample.parked))
  = pendingConfirmations Sample.parked.
Proof.
  refine (proj1 (ungated_tiers_run_directly Sample.env Sample.obliging
                   Sample.parked prepare signTransactionTool Sample.transfer
                   _ _ _ _ _)).
  - vm_compute. reflexivity.
  - cbn. tauto.
  - discriminate.
  - reflexivity.
  - vm_compute. reflexivity.
Defined.

(** ** The listing *)

(** C9, as the specification has it, fails: with all four tiers allowed and
    [requireConfirmation] false, the listing has the four tools of the read,
    prepare and info tiers, and not the descriptor of the transaction tier,
    which is an enabled tier. *)
Lemma listing_lacks_enabled_tier :
  includes (config (Sample.server false)) transaction = true
  /\ fst (listTools (Sample.server false))
     = [getAddressTool; getBalanceTool; signTransactionTool; getTokenBalanceTool]
  /\ listEnabled_spec (config (Sample.server false))
     = [getAddressTool; getBalanceTool; signTransactionTool; getTokenBalanceTool;
        sendTransactionTool]
  /\ fst (listTools (Sample.server false))
     <> listEnabled_spec (config (Sample.server false)).
Proof.
  assert (Hlisted : fst (listTools (Sample.server false))
                    = [getAddressTool; getBalanceTool; signTransactionTool;
                       getTokenBalanceTool]) by reflexivity.
  assert (Hspec : listEnabled_spec (config (Sample.server false))
                  = [getAddressTool; getBalanceTool; signTransactionTool;
                     getTokenBalanceTool; sendTransactionTool]) by reflexivity.
  split; [reflexivity|]. split; [exact Hlisted|]. split; [exact Hspec|].
  rewrite Hlisted, Hspec. intros Heq.
  apply (f_equal (@length Tool)) in Heq. discriminate Heq.
Qed.

(** C9, amended: on a started server, listing the tools twice gives the
    same sequence, and that sequence is the descriptors, in registration
    order (read, prepare, info, transaction), of the tiers that
    [registerTools] registers: an allowed tier, and for the transaction tier
    one that is allowed while confirmation is required. *)
Theorem listing_is_registration_order (st : McpServer) :
  started st ->
  fst (listTools (snd (listTools st))) = fst (listTools st)
  /\ fst (listTools st)
     = map snd (filter (fun entry => registers (config st) (fst entry)) registry).
Proof.
  intros Hstarted. split; [reflexivity|].
  cbn [listTools fst]. rewrite (tools_started st Hstarted).
  apply registered_filter.
Qed.

Lemma listing_is_registration_order_witness :
  fst (listTools (Sample.server true))
  = [getAddressTool; getBalanceTool; signTransactionTool; getTokenBalanceTool;
     sendTransactionTool].
Proof.
  refine (proj2 (listing_is_registration_order (Sample.server true) _)).
  vm_compute. reflexivity.
Defined.

(** ** The shape of an error response *)

(** C10, as stated, fails: [null] is valid JSON text, and a handler error
    whose message is [null] is answered with a [TOOL_ERROR], not with the
    parsed value: reading [parsedError.message] for the log line throws,
    inside the [try] whose [catch] answers for a regular error. *)
Lemma null_message_is_a_tool_error :
  JSON.parse "null" = Some VNull
  /\ fst (callTool Sample.env Sample.laconic
            {| tool_name := "wallet_getBalance"; arguments := VObj [] |}
            (Sample.server true))
     = error (tool_error "null").
Proof. vm_compute. split; reflexivity. Qed.

(** C10, amended: when the handler of a registered tool throws an [Error],
    the response depends on its message alone.  If the message parses as
    JSON to a value whose [message] can be read and put into the log line
    (any value but [null], unless its [message] member is an object or array
    that does not convert to a string), the response is [{ error: parsed }];
    this is how the confirmation request is delivered, and a wallet failure
    with such a message is answered the same way.  Otherwise the response is
    [{ error: { code: 'TOOL_ERROR', message } }]. *)
Theorem error_shape_follows_message (env : Env) (wallet : Wallet.t)
    (st st1 : McpServer) (request : CallToolRequest) (tool : Tool)
    (message : string) :
  find (fun t => String.eqb (name t) (tool_name request)) (tools st) = Some tool ->
  run_handler env wallet (handler tool) (arguments request) st
    = (Threw (JsError message), st1) ->
  fst (callTool env wallet request st)
    = match JSON.parse message with
      | Some parsedError =>
          if structured parsedError then error parsedError
          else error (tool_error message)
      | None => error (tool_error message)
      end.
Proof.
  intros Hfound Hthrows. unfold callTool. rewrite Hfound, Hthrows.
  unfold on_error, structured, interpolate.
  destruct (JSON.parse message) as [parsedError|]; [|reflexivity].
  destruct (Js.get parsedError "message") as [m|]; [|reflexivity].
  destruct (Js.stringifiable m); reflexivity.
Qed.

Lemma error_shape_follows_message_witness :
  fst (callTool Sample.env Sample.mimic
         {| tool_name := "wallet_getBalance"; arguments := VObj [] |}
         (Sample.server true))
  = error (need_confirmation "none").
Proof.
  refine (error_shape_follows_message Sample.env Sample.mimic (Sample.server true)
            (snd (run_handler Sample.env Sample.mimic getBalanceHandler (VObj [])
                    (Sample.server true)))
            {| tool_name := "wallet_getBalance"; arguments := VObj [] |}
            getBalanceTool (JSON.stringify (need_confirmation "none")) _ _).
  - reflexivity.
  - reflexivity.
Defined.

(** * Further results on the server *)

(** ** What one request can change *)

Lemma on_error_config (e : Thrown) (st : McpServer) :
  config (snd (on_error e st)) = config st.
Proof.
  unfold on_error. destruct e as [message|]; [|reflexivity].
  destruct (JSON.parse message); [|reflexivity].
  destruct (interpolate _ _); reflexivity.
Qed.

Lemma on_error_tools (e : Thrown) (st : McpServer) :
  tools (snd (on_error e st)) = tools st.
Proof.
  unfold on_error. destruct e as [message|]; [|reflexivity].
  destruct (JSON.parse message); [|reflexivity].
  destruct (interpolate _ _); reflexivity.
Qed.

(** What a handler leaves behind: the configuration and the tools as they
    were; the pending map as it was, unless the handler is the one of
    [wallet_sendTransaction] under required confirmation, which adds one
    entry and does not ask the wallet; the wallet asked at most once, and
    asked to send only by that handler when no confirmation is required. *)
Lemma run_handler_effect (env : Env) (wallet : Wallet.t) (h : Handler)
    (args : JsValue) (st : McpServer) :
  let st' := snd (run_handler env wallet h args st) in
  config st' = config st
  /\ tools st' = tools st
  /\ ((pendingConfirmations st' = pendingConfirmations st
       /\ exists l, walletCalls st' = (walletCalls st ++ l)%list
                    /\ forall p, In (Wallet.sendTransaction p) l ->
                                 h = sendTransactionHandler
                                 /\ confirmation_required (config st) = false)
      \/ (h = sendTransactionHandler
          /\ confirmation_required (config st) = true
          /\ pendingConfirmations st'
             = <[randomUUID env := {| params := args; status := pending;
                                      createdAt := Date_now env |}]>
                 (pendingConfirmations st)
          /\ walletCalls st' = walletCalls st)).
Proof.
  destruct h; cbn [run_handler]; unfold ask.
  - destruct (wallet _ _); repeat split; left; (split; [reflexivity|]);
      exists [Wallet.getAddress]; (split; [reflexivity|]);
      intros p [H|[]]; discriminate H.
  - destruct (wallet _ _); repeat split; left; (split; [reflexivity|]);
      exists [Wallet.getBalance]; (split; [reflexivity|]);
      intros p [H|[]]; discriminate H.
  - destruct (wallet _ _); [destruct (interpolate _ _)|];
      repeat split; left; (split; [reflexivity|]);
      exists [Wallet.signTransaction args]; (split; [reflexivity|]);
      intros p [H|[]]; discriminate H.
  - destruct (Js.get args "token") as [token|];
      [destruct (Js.get args "decimals") as [decimals|]|].
    + destruct (wallet _ _); [destruct (interpolate _ _)|];
        repeat split; left; (split; [reflexivity|]);
        exists [Wallet.getTokenBalance token decimals]; (split; [reflexivity|]);
        intros p [H|[]]; discriminate H.
    + repeat split; left; (split; [reflexivity|]).
      exists []. split; [now rewrite app_nil_r | intros p []].
    + repeat split; left; (split; [reflexivity|]).
      exists []. split; [now rewrite app_nil_r | intros p []].
  - destruct (confirmation_required (config st)) eqn:Hconfirm.
    + repeat split. right. repeat split.
    + destruct (wallet _ _); repeat split; left; (split; [reflexivity|]);
        exists [Wallet.sendTransaction args]; (split; [reflexivity|]);
        intros p _; split; reflexivity.
Qed.

Lemma callTool_config (env : Env) (wallet : Wallet.t) (request : CallToolRequest)
    (st : McpServer) :
  config (snd (callTool env wallet request st)) = config st.
Proof.
  unfold callTool. destruct (find _ _) as [tool|].
  - pose proof (run_handler_effect env wallet (handler tool) (arguments request) st)
      as (Hconfig & _).
    destruct (run_handler _ _ _ _ _) as [[value|e] st1]; cbn [snd] in *.
    + exact Hconfig.
    + now rewrite on_error_config.
  - now rewrite on_error_config.
Qed.

Lemma callTool_tools (env : Env) (wallet : Wallet.t) (request : CallToolRequest)
    (st : McpServer) :
  tools (snd (callTool env wallet request st)) = tools st.
Proof.
  unfold callTool. destruct (find _ _) as [tool|].
  - pose proof (run_handler_effect env wallet (handler tool) (arguments request) st)
      as (_ & Htools & _).
    destruct (run_handler _ _ _ _ _) as [[value|e] st1]; cbn [snd] in *.
    + exact Htools.
    + now rewrite on_error_tools.
  - now rewrite on_error_tools.
Qed.

(** The pending map and the wallet after a tool call. *)
Lemma callTool_effect (env : Env) (wallet : Wallet.t) (request : CallToolRequest)
    (st : McpServer) :
  let st' := snd (callTool env wallet request st) in
  (pendingConfirmations st' = pendingConfirmations st
   /\ exists l, walletCalls st' = (walletCalls st ++ l)%list
                /\ forall p, In (Wallet.sendTransaction p) l ->
                             confirmation_required (config st) = false)
  \/ (exists tool,
        find (fun t => String.eqb (name t) (tool_name request)) (tools st) = Some tool
        /\ handler tool = sendTransactionHandler
        /\ confirmation_required (config st) = true
        /\ pendingConfirmations st'
           = <[randomUUID env := {| params := arguments request; status := pending;
                                    createdAt := Date_now env |}]>
               (pendingConfirmations st)
        /\ walletCalls st' = walletCalls st).
Proof.
  unfold callTool. destruct (find _ _) as [tool|] eqn:Hfind.
  - pose proof (run_handler_effect env wallet (handler tool) (arguments request) st)
      as (_ & _ & Heffect).
    destruct (run_handler _ _ _ _ _) as [[value|e] st1]; cbn [snd] in *;
      rewrite ?on_error_pending, ?on_error_calls;
      (destruct Heffect as [(Hmap & l & Hcalls & Hsend)|(Hh & Hc & Hmap & Hcalls)];
       [left; split; [exact Hmap|]; exists l; split; [exact Hcalls|];
        intros p Hp; apply (Hsend p Hp)
       |right; exists tool; repeat split; assumption]).
  - left. rewrite on_error_pending, on_error_calls. split; [reflexivity|].
    exists []. split; [now rewrite app_nil_r | intros p []].
Qed.

Lemma serve_config (wallet : Wallet.t) (r : Request) (st : McpServer) :
  config (serve wallet r st) = config st.
Proof.
  destruct r as [env request| |txId|txId]; cbn [serve].
  - apply callTool_config.
  - reflexivity.
  - unfold confirmTransaction, ask.
    destruct (pendingConfirmations st !! txId); [|reflexivity].
    destruct (wallet _ _); reflexivity.
  - unfold rejectTransaction.
    destruct (pendingConfirmations st !! txId); reflexivity.
Qed.

Lemma serve_tools (wallet : Wallet.t) (r : Request) (st : McpServer) :
  tools (serve wallet r st) = tools st.
Proof.
  destruct r as [env request| |txId|txId]; cbn [serve].
  - apply callTool_tools.
  - reflexivity.
  - unfold confirmTransaction, ask.
    destruct (pendingConfirmations st !! txId); [|reflexivity].
    destruct (wallet _ _); reflexivity.
  - unfold rejectTransaction.
    destruct (pendingConfirmations st !! txId); reflexivity.
Qed.

Lemma serve_all_config (wallet : Wallet.t) (rs : list Request) (st : McpServer) :
  config (serve_all wallet rs st) = config st.
Proof.
  revert st. induction rs as [|r rs IH]; intros st; [reflexivity|].
  cbn [serve_all]. now rewrite IH, serve_config.
Qed.

(** ** The registry *)

Lemma includes_In (cfg : McpServerConfig) (op : OperationType) :
  includes cfg op = true
  <-> exists ops, allowedOperations cfg = present ops /\ In op ops.
Proof.
  unfold includes. destruct (allowedOperations cfg) as [| |ops].
  - split; [discriminate|]. now intros (ops & [=] & _).
  - split; [discriminate|]. now intros (ops & [=] & _).
  - rewrite existsb_exists. split.
    + intros (x & Hx & Hsame). exists ops. split; [reflexivity|].
      destruct op, x; try discriminate Hsame; exact Hx.
    + intros (ops' & [= <-] & Hin). exists op. split; [exact Hin|].
      now destruct op.
Qed.

Lemma send_registered (cfg : McpServerConfig) :
  In sendTransactionTool (registered cfg)
  <-> includes cfg transaction && confirmation_required cfg = true.
Proof.
  unfold registered.
  destruct (includes cfg transaction && confirmation_required cfg).
  - split; [reflexivity|]. intros _. rewrite !in_app_iff. cbn [In]. tauto.
  - split; [|discriminate]. rewrite !in_app_iff.
    destruct (includes cfg read), (includes cfg prepare), (includes cfg info);
      cbn [In]; intros H;
      repeat (destruct H as [H|H]; try contradiction H;
              try (apply (f_equal name) in H; discriminate H)).
Qed.

Lemma listing_of_new (serverConfig : McpServerConfig) :
  fst (listTools (start (new_McpServer serverConfig)))
  = registered (with_defaults serverConfig).
Proof.
  cbn [listTools fst].
  rewrite (tools_started _ (started_start serverConfig)).
  unfold start. cbn [config sendLoggingMessage].
  rewrite registerTools_config. reflexivity.
Qed.

(** X1: what the constructor's defaults expose, once the server is started.
    A configuration without the property [allowedOperations] lists the two
    read tools, the sign tool and the token-balance tool, whatever [port]
    and [requireConfirmation] it holds.  A configuration that holds
    [undefined] under [allowedOperations] lists no tool: the spread copies
    it over the default.  [wallet_sendTransaction] is listed exactly when
    the configuration holds a list with [transaction] in it and
    [requireConfirmation] is either not a property of it or [true]; holding
    [undefined] under it hides the tool like [false]. *)
Theorem default_operations_hide_send (serverConfig : McpServerConfig) :
  (allowedOperations serverConfig = missing ->
   fst (listTools (start (new_McpServer serverConfig)))
   = [getAddressTool; getBalanceTool; signTransactionTool; getTokenBalanceTool])
  /\ (allowedOperations serverConfig = undefined ->
      fst (listTools (start (new_McpServer serverConfig))) = [])
  /\ (In sendTransactionTool (fst (listTools (start (new_McpServer serverConfig))))
      <-> (exists ops,
             allowedOperations serverConfig = present ops /\ In transaction ops)
          /\ (requireConfirmation serverConfig = missing
              \/ requireConfirmation serverConfig = present true)).
Proof.
  rewrite listing_of_new. split; [|split].
  - intros Hdefault. unfold registered, includes, with_defaults.
    cbn [allowedOperations]. rewrite Hdefault. reflexivity.
  - intros Hdefault. unfold registered, includes, with_defaults.
    cbn [allowedOperations]. rewrite Hdefault. reflexivity.
  - rewrite send_registered, andb_true_iff, includes_In.
    unfold confirmation_required, with_defaults.
    cbn [allowedOperations requireConfirmation].
    assert (Hops : (exists ops,
                      spread [read; prepare; info] (allowedOperations serverConfig)
                      = present ops /\ In transaction ops)
                   <-> (exists ops,
                          allowedOperations serverConfig = present ops
                          /\ In transaction ops)).
    { destruct (allowedOperations serverConfig) as [| |given]; cbn [spread].
      - split.
        + intros (ops & [= <-] & Hin). cbn in Hin.
          destruct Hin as [H|[H|[H|[]]]]; discriminate H.
        + intros (ops & H & _). discriminate H.
      - reflexivity.
      - reflexivity. }
    assert (Hflag : match spread true (requireConfirmation serverConfig) with
                    | present b => b
                    | _ => false
                    end = true
                    <-> requireConfirmation serverConfig = missing
                        \/ requireConfirmation serverConfig = present true).
    { destruct (requireConfirmation serverConfig) as [| |[|]]; cbn [spread];
        split; try discriminate; try tauto;
        intros [H|H]; discriminate H. }
    rewrite Hops, Hflag. reflexivity.
Qed.

Lemma default_operations_hide_send_witness :
  fst (listTools (start (new_McpServer
                           {| port := present 8080%Z; allowedOperations := undefined;
                              requireConfirmation := present true |})))
  = [].
Proof.
  refine (proj1 (proj2 (default_operations_hide_send
                          {| port := present 8080%Z; allowedOperations := undefined;
                             requireConfirmation := present true |})) _).
  reflexivity.
Defined.

Lemma find_none_of_names (nm : string) (cfg : McpServerConfig) :
  ~ In nm ["wallet_getAddress"; "wallet_getBalance"; "wallet_signTransaction";
           "wallet_getTokenBalance"; "wallet_sendTransaction"] ->
  find (fun t => String.eqb (name t) nm) (registered cfg) = None.
Proof.
  intros Hnm.
  assert (Hne : forall known,
             In known ["wallet_getAddress"; "wallet_getBalance";
                       "wallet_signTransaction"; "wallet_getTokenBalance";
                       "wallet_sendTransaction"] ->
             String.eqb known nm = false).
  { intros known Hknown. apply String.eqb_neq. intros ->. now apply Hnm. }
  unfold registered.
  destruct (includes cfg read), (includes cfg prepare), (includes cfg info),
    (includes cfg transaction && confirmation_required cfg);
    cbn [app find name getAddressTool getBalanceTool signTransactionTool
           getTokenBalanceTool sendTransactionTool];
    rewrite ?(Hne "wallet_getAddress"), ?(Hne "wallet_getBalance"),
      ?(Hne "wallet_signTransaction"), ?(Hne "wallet_getTokenBalance"),
      ?(Hne "wallet_sendTransaction") by (cbn; tauto);
    reflexivity.
Qed.

(** X2: on a started server, a call that names none of the five tools is
    answered with the [TOOL_ERROR] saying that the tool is not found; the
    wallet is not asked and the pending map is unchanged, whatever the
    parameters. *)
Theorem unknown_tool_is_not_found (env : Env) (wallet : Wallet.t)
    (st : McpServer) (request : CallToolRequest) :
  started st ->
  ~ In (tool_name request)
       ["wallet_getAddress"; "wallet_getBalance"; "wallet_signTransaction";
        "wallet_getTokenBalance"; "wallet_sendTransaction"] ->
  fst (callTool env wallet request st)
    = error (tool_error ("Tool " +:+ tool_name request +:+ " not found"))
  /\ walletCalls (snd (callTool env wallet request st)) = walletCalls st
  /\ pendingConfirmations (snd (callTool env wallet request st))
     = pendingConfirmations st.
Proof.
  intros Hstarted Hname. unfold callTool.
  rewrite (tools_started st Hstarted), (find_none_of_names _ _ Hname).
  rewrite on_error_not_found. repeat split.
Qed.

Lemma unknown_tool_is_not_found_witness :
  fst (callTool Sample.env Sample.obliging
         {| tool_name := "mcp_wallet_address"; arguments := VObj [] |}
         (Sample.server true))
  = error (tool_error "Tool mcp_wallet_address not found").
Proof.
  refine (proj1 (unknown_tool_is_not_found Sample.env Sample.obliging
                   (Sample.server true)
                   {| tool_name := "mcp_wallet_address"; arguments := VObj [] |}
                   _ _)).
  - vm_compute. reflexivity.
  - cbn. intros [H|[H|[H|[H|[H|[]]]]]]; discriminate H.
Defined.

(** X3: the constructor registers nothing; tools are registered by
    [start].  A server that was constructed and not started lists no tool
    and answers every call, for every name, with the [TOOL_ERROR] of a tool
    that is not found, without asking the wallet. *)
Theorem unstarted_server_has_no_tools (serverConfig : McpServerConfig)
    (env : Env) (wallet : Wallet.t) (request : CallToolRequest) :
  fst (listTools (new_McpServer serverConfig)) = []
  /\ fst (callTool env wallet request (new_McpServer serverConfig))
     = error (tool_error ("Tool " +:+ tool_name request +:+ " not found"))
  /\ walletCalls (snd (callTool env wallet request (new_McpServer serverConfig)))
     = [].
Proof.
  unfold callTool. cbn [tools new_McpServer find].
  rewrite on_error_not_found. repeat split.
Qed.

(** X4: [registerTools] pushes without looking at what is registered.
    Starting a server twice lists every registered tool twice. *)
Theorem start_twice_lists_twice (st : McpServer) :
  fst (listTools (start (start st)))
  = (tools st ++ registered (config st) ++ registered (config st))%list.
Proof.
  cbn [listTools fst]. unfold start.
  cbn [tools config sendLoggingMessage].
  rewrite !registerTools_tools. cbn [tools config sendLoggingMessage].
  rewrite registerTools_config. cbn [config sendLoggingMessage].
  rewrite registerTools_tools. cbn [tools config sendLoggingMessage].
  now rewrite app_assoc.
Qed.

(** X7: no request changes the configuration or the tool list: after any
    history of tool calls, listings, confirmations and rejections the
    listing is what it was, and a started server is still started. *)
Theorem listing_survives_requests (wallet : Wallet.t) (rs : list Request)
    (st : McpServer) :
  fst (listTools (serve_all wallet rs st)) = fst (listTools st)
  /\ config (serve_all wallet rs st) = config st
  /\ (started st -> started (serve_all wallet rs st)).
Proof.
  assert (Htools : forall rs st, tools (serve_all wallet rs st) = tools st).
  { clear. induction rs as [|r rs IH]; intros st; [reflexivity|].
    cbn [serve_all]. now rewrite IH, serve_tools. }
  split; [apply Htools|]. split; [apply serve_all_config|].
  unfold started. intros Hstarted.
  rewrite Htools, !registerTools_tools. cbn [tools config set_tools].
  rewrite serve_all_config.
  rewrite Hstarted at 1. now rewrite registerTools_tools.
Qed.

Lemma listing_survives_requests_witness :
  started (serve_all Sample.obliging
             [ToolCall Sample.env
                {| tool_name := "wallet_sendTransaction";
                   arguments := Sample.transfer |};
              Confirm (randomUUID Sample.env); Listing]
             (Sample.server true)).
Proof.
  refine (proj2 (proj2 (listing_survives_requests Sample.obliging _
                          (Sample.server true))) _).
  vm_compute. reflexivity.
Defined.

(** ** The pending map and the wallet along a history *)

(** X5: while confirmation is required, no tool call asks the wallet to
    send a transaction, whichever tool it names and whatever its parameters:
    every send the wallet has been asked after the call, it had been asked
    before. *)
Theorem tool_calls_never_send (env : Env) (wallet : Wallet.t)
    (request : CallToolRequest) (st : McpServer) (p : JsValue) :
  confirmation_required (config st) = true ->
  In (Wallet.sendTransaction p) (walletCalls (snd (callTool env wallet request st))) ->
  In (Wallet.sendTransaction p) (walletCalls st).
Proof.
  intros Hconfirm Hin.
  destruct (callTool_effect env wallet request st)
    as [(_ & l & Hcalls & Hsend)|(tool & _ & _ & _ & _ & Hcalls)].
  - cbn zeta in Hcalls. rewrite Hcalls in Hin.
    apply in_app_or in Hin as [Hin|Hin]; [exact Hin|].
    specialize (Hsend p Hin). congruence.
  - cbn zeta in Hcalls. now rewrite Hcalls in Hin.
Qed.

Lemma tool_calls_never_send_witness :
  In (Wallet.sendTransaction Sample.transfer)
     (walletCalls (snd (confirmTransaction Sample.obliging (randomUUID Sample.env)
                          Sample.parked))).
Proof.
  refine (tool_calls_never_send Sample.env Sample.obliging
            {| tool_name := "wallet_sendTransaction"; arguments := Sample.transfer |}
            (snd (confirmTransaction Sample.obliging (randomUUID Sample.env)
                    Sample.parked))
            Sample.transfer _ _).
  - reflexivity.
  - vm_compute. left. reflexivity.
Defined.

Lemma serve_keeps_ids (wallet : Wallet.t) (r : Request) (st : McpServer)
    (txId : string) :
  is_Some (pendingConfirmations st !! txId) ->
  is_Some (pendingConfirmations (serve wallet r st) !! txId).
Proof.
  intros Hpresent. destruct r as [env request| |id|id]; cbn [serve].
  - destruct (callTool_effect env wallet request st)
      as [(Hmap & _)|(tool & _ & _ & _ & Hmap & _)]; cbn zeta in Hmap;
      rewrite Hmap; [exact Hpresent|].
    rewrite lookup_insert. case_decide; [eauto | exact Hpresent].
  - exact Hpresent.
  - destruct (pendingConfirmations st !! id) as [tx|] eqn:Hid.
    + destruct (confirmTransaction_present wallet id st tx Hid) as (_ & Hmap & _).
      rewrite Hmap, lookup_insert. case_decide; [eauto | exact Hpresent].
    + now rewrite (confirmTransaction_absent wallet id st Hid).
  - destruct (pendingConfirmations st !! id) as [tx|] eqn:Hid.
    + destruct (rejectTransaction_present id st tx Hid) as (_ & Hmap & _).
      rewrite Hmap, lookup_insert. case_decide; [eauto | exact Hpresent].
    + unfold rejectTransaction. now rewrite Hid.
Qed.

(** X6: nothing removes an entry from the pending map.  An id that is in
    the map is still in it after any history of tool calls, listings,
    confirmations and rejections, resolved or not. *)
Theorem pending_ids_never_leave (wallet : Wallet.t) (rs : list Request)
    (st : McpServer) (txId : string) :
  is_Some (pendingConfirmations st !! txId) ->
  is_Some (pendingConfirmations (serve_all wallet rs st) !! txId).
Proof.
  revert st. induction rs as [|r rs IH]; intros st Hpresent; [exact Hpresent|].
  cbn [serve_all]. apply IH. now apply serve_keeps_ids.
Qed.

Lemma pending_ids_never_leave_witness :
  is_Some (pendingConfirmations
             (serve_all Sample.obliging
                [Confirm (randomUUID Sample.env); Reject (randomUUID Sample.env);
                 Listing]
                Sample.parked)
             !! randomUUID Sample.env).
Proof.
  refine (pending_ids_never_leave Sample.obliging _ Sample.parked _ _).
  vm_compute. eauto.
Defined.

Lemma serve_keeps_entry (wallet : Wallet.t) (r : Request) (st : McpServer)
    (txId : string) (tx : PendingTx) :
  ~ draws txId r ->
  pendingConfirmations st !! txId = Some tx ->
  exists tx',
    pendingConfirmations (serve wallet r st) !! txId = Some tx'
    /\ params tx' = params tx
    /\ createdAt tx' = createdAt tx
    /\ (status tx <> pending -> status tx' <> pending).
Proof.
  intros Hfresh Hpresent. destruct r as [env request| |id|id]; cbn [serve].
  - cbn [draws] in Hfresh.
    destruct (callTool_effect env wallet request st)
      as [(Hmap & _)|(tool & _ & _ & _ & Hmap & _)]; cbn zeta in Hmap;
      rewrite Hmap; [eauto|].
    rewrite lookup_insert_ne by exact Hfresh. eauto.
  - eauto.
  - destruct (pendingConfirmations st !! id) as [other|] eqn:Hid.
    + destruct (confirmTransaction_present wallet id st other Hid) as (_ & Hmap & _).
      rewrite Hmap, lookup_insert. case_decide as Hsame; [|eauto].
      subst id. rewrite Hpresent in Hid. injection Hid as <-.
      eexists. split; [reflexivity|]. repeat split. discriminate.
    + rewrite (confirmTransaction_absent wallet id st Hid). eauto.
  - destruct (pendingConfirmations st !! id) as [other|] eqn:Hid.
    + destruct (rejectTransaction_present id st other Hid) as (_ & Hmap & _).
      rewrite Hmap, lookup_insert. case_decide as Hsame; [|eauto].
      subst id. rewrite Hpresent in Hid. injection Hid as <-.
      eexists. split; [reflexivity|]. repeat split. discriminate.
    + unfold rejectTransaction. rewrite Hid. eauto.
Qed.

(** X8: an entry keeps the parameters and the creation time it was parked
    with, and once it is confirmed or rejected its status never goes back to
    [pending], through any history in which no tool call draws its id
    again. *)
Theorem entry_is_stable (wallet : Wallet.t) (rs : list Request)
    (st : McpServer) (txId : string) (tx : PendingTx) :
  Forall (fun r => ~ draws txId r) rs ->
  pendingConfirmations st !! txId = Some tx ->
  exists tx',
    pendingConfirmations (serve_all wallet rs st) !! txId = Some tx'
    /\ params tx' = params tx
    /\ createdAt tx' = createdAt tx
    /\ (status tx <> pending -> status tx' <> pending).
Proof.
  revert st tx. induction rs as [|r rs IH]; intros st tx Hfresh Hpresent.
  - exists tx. repeat split; [exact Hpresent | tauto].
  - inversion Hfresh as [|r' rs' Hr Hrs]; subst.
    destruct (serve_keeps_entry wallet r st txId tx Hr Hpresent)
      as (tx1 & Hpresent1 & Hparams1 & Hcreated1 & Hstatus1).
    destruct (IH (serve wallet r st) tx1 Hrs Hpresent1)
      as (tx' & Hpresent' & Hparams' & Hcreated' & Hstatus').
    exists tx'. cbn [serve_all]. repeat split;
      [exact Hpresent' | congruence | congruence | tauto].
Qed.

Lemma entry_is_stable_witness :
  exists tx',
    pendingConfirmations
      (serve_all Sample.obliging
         [Reject (randomUUID Sample.env); Listing; Confirm "another"] Sample.parked)
      !! randomUUID Sample.env = Some tx'
    /\ params tx' = Sample.transfer
    /\ createdAt tx' = Date_now Sample.env
    /\ (pending <> pending -> status tx' <> pending).
Proof.
  refine (entry_is_stable Sample.obliging _ Sample.parked (randomUUID Sample.env)
            {| params := Sample.transfer; status := pending;
               createdAt := Date_now Sample.env |} _ _).
  - repeat constructor; cbn; tauto.
  - vm_compute. reflexivity.
Defined.

Lemma send_handler_name (cfg : McpServerConfig) (tool : Tool) :
  In tool (registered cfg) ->
  handler tool = sendTransactionHandler ->
  name tool = "wallet_sendTransaction".
Proof.
  unfold registered.
  destruct (includes cfg read), (includes cfg prepare), (includes cfg info),
    (includes cfg transaction && confirmation_required cfg);
    cbn [app In]; intuition (subst; try discriminate; reflexivity).
Qed.

Lemma started_serve (wallet : Wallet.t) (r : Request) (st : McpServer) :
  started st -> started (serve wallet r st).
Proof.
  unfold started. intros Hstarted.
  rewrite serve_tools, !registerTools_tools. cbn [tools config set_tools].
  rewrite serve_config. rewrite Hstarted at 1. now rewrite registerTools_tools.
Qed.

(** A property of parameters that holds of every parked request, of every
    entry of the map and of every send the wallet was asked, still holds of
    every entry and every send after one more request. *)
Lemma serve_sound (ok : JsValue -> Prop) (wallet : Wallet.t) (r : Request)
    (st : McpServer) :
  started st ->
  confirmation_required (config st) = true ->
  (forall p, parks p r -> ok p) ->
  (forall id tx, pendingConfirmations st !! id = Some tx -> ok (params tx)) ->
  (forall p, In (Wallet.sendTransaction p) (walletCalls st) -> ok p) ->
  (forall id tx, pendingConfirmations (serve wallet r st) !! id = Some tx ->
                 ok (params tx))
  /\ (forall p, In (Wallet.sendTransaction p) (walletCalls (serve wallet r st)) ->
                ok p).
Proof.
  intros Hstarted Hconfirm Hparks Hmap Hsent.
  destruct r as [env request| |txId|txId]; cbn [serve].
  - split.
    + destruct (callTool_effect env wallet request st)
        as [(Hmap' & _)|(tool & Hfind & Hhandler & _ & Hmap' & _)];
        cbn zeta in Hmap'; rewrite Hmap'; [exact Hmap|].
      intros id tx. rewrite lookup_insert. case_decide; [|apply Hmap].
      intros [= <-]. cbn [params]. apply Hparks. cbn [parks].
      split; [|reflexivity].
      apply find_some in Hfind as [Hin Hname].
      apply String.eqb_eq in Hname. rewrite <- Hname.
      rewrite (tools_started st Hstarted) in Hin.
      now apply (send_handler_name (config st)).
    + intros p Hp. apply Hsent.
      now apply (tool_calls_never_send env wallet request st p Hconfirm).
  - split; [exact Hmap | exact Hsent].
  - destruct (pendingConfirmations st !! txId) as [tx|] eqn:Hid.
    + destruct (confirmTransaction_present wallet txId st tx Hid)
        as (_ & Hmap' & Hcalls).
      rewrite Hmap', Hcalls. split.
      * intros id tx'. rewrite lookup_insert. case_decide; [|apply Hmap].
        intros [= <-]. cbn [with_status params]. now apply (Hmap txId).
      * intros p Hp. apply in_app_or in Hp as [Hp|[Hp|[]]]; [now apply Hsent|].
        injection Hp as <-. now apply (Hmap txId).
    + rewrite (confirmTransaction_absent wallet txId st Hid).
      split; [exact Hmap | exact Hsent].
  - destruct (pendingConfirmations st !! txId) as [tx|] eqn:Hid.
    + destruct (rejectTransaction_present txId st tx Hid) as (_ & Hmap' & Hcalls).
      rewrite Hmap', Hcalls. split; [|exact Hsent].
      intros id tx'. rewrite lookup_insert. case_decide; [|apply Hmap].
      intros [= <-]. cbn [with_status params]. now apply (Hmap txId).
    + unfold rejectTransaction. rewrite Hid. split; [exact Hmap | exact Hsent].
Qed.

Lemma serve_all_sound (ok : JsValue -> Prop) (wallet : Wallet.t)
    (rs : list Request) (st : McpServer) :
  started st ->
  confirmation_required (config st) = true ->
  (forall p, Exists (parks p) rs -> ok p) ->
  (forall id tx, pendingConfirmations st !! id = Some tx -> ok (params tx)) ->
  (forall p, In (Wallet.sendTransaction p) (walletCalls st) -> ok p) ->
  forall p, In (Wallet.sendTransaction p) (walletCalls (serve_all wallet rs st)) ->
            ok p.
Proof.
  revert st. induction rs as [|r rs IH];
    intros st Hstarted Hconfirm Hparks Hmap Hsent; [exact Hsent|].
  cbn [serve_all].
  destruct (serve_sound ok wallet r st Hstarted Hconfirm) as [Hmap' Hsent'];
    [intros p Hp; apply Hparks; now left | exact Hmap | exact Hsent |].
  apply IH.
  - now apply started_serve.
  - now rewrite serve_config.
  - intros p Hp. apply Hparks. now right.
  - exact Hmap'.
  - exact Hsent'.
Qed.

(** X9: on a started server that requires confirmation, whatever the
    history of requests, every transaction the wallet is asked to send was
    parked first: its parameters are those of a [wallet_sendTransaction]
    call of the history, or of an entry that was in the map at the outset
    (or the wallet had been asked to send them before). *)
Theorem sends_were_parked (wallet : Wallet.t) (rs : list Request)
    (st : McpServer) (p : JsValue) :
  started st ->
  confirmation_required (config st) = true ->
  In (Wallet.sendTransaction p) (walletCalls (serve_all wallet rs st)) ->
  In (Wallet.sendTransaction p) (walletCalls st)
  \/ (exists txId tx, pendingConfirmations st !! txId = Some tx /\ params tx = p)
  \/ Exists (parks p) rs.
Proof.
  intros Hstarted Hconfirm.
  apply (serve_all_sound
           (fun q => In (Wallet.sendTransaction q) (walletCalls st)
                     \/ (exists txId tx,
                           pendingConfirmations st !! txId = Some tx
                           /\ params tx = q)
                     \/ Exists (parks q) rs)
           wallet rs st Hstarted Hconfirm).
  - intros q Hq. now right; right.
  - intros id tx Hid. right; left. eauto.
  - intros q Hq. now left.
Qed.

Lemma sends_were_parked_witness :
  In (Wallet.sendTransaction Sample.transfer) (walletCalls (Sample.server true))
  \/ (exists txId tx,
        pendingConfirmations (Sample.server true) !! txId = Some tx
        /\ params tx = Sample.transfer)
  \/ Exists (parks Sample.transfer)
       [ToolCall Sample.env
          {| tool_name := "wallet_sendTransaction"; arguments := Sample.transfer |};
        Confirm (randomUUID Sample.env)].
Proof.
  refine (sends_were_parked Sample.obliging _ (Sample.server true)
            Sample.transfer _ _ _).
  - vm_compute. reflexivity.
  - reflexivity.
  - vm_compute. left. reflexivity.
Defined.

(** ** Single requests *)

(** X10: [wallet_getTokenBalance] reads [token] and [decimals] off its
    parameters before it calls the wallet.  When the parameters are [null]
    or [undefined] the read throws: the response is a [TOOL_ERROR], the
    wallet is not asked and the pending map is unchanged. *)
Theorem token_balance_without_parameters (env : Env) (wallet : Wallet.t)
    (st : McpServer) (args : JsValue) :
  started st ->
  includes (config st) info = true ->
  args = VUndefined \/ args = VNull ->
  (exists message,
     fst (callTool env wallet
            {| tool_name := "wallet_getTokenBalance"; arguments := args |} st)
     = error (tool_error message))
  /\ walletCalls
       (snd (callTool env wallet
               {| tool_name := "wallet_getTokenBalance"; arguments := args |} st))
     = walletCalls st
  /\ pendingConfirmations
       (snd (callTool env wallet
               {| tool_name := "wallet_getTokenBalance"; arguments := args |} st))
     = pendingConfirmations st.
Proof.
  intros Hstarted Hinfo Hargs.
  pose proof (callTool_registered env wallet st info getTokenBalanceTool args
                Hstarted) as Hcall.
  cbn [name getTokenBalanceTool] in Hcall.
  rewrite Hcall; [|cbn; tauto | exact Hinfo]. clear Hcall.
  destruct Hargs as [-> | ->]; cbn [handler run_handler Js.get];
    (split; [eexists; reflexivity | split; reflexivity]).
Qed.

Lemma token_balance_without_parameters_witness :
  walletCalls
    (snd (callTool Sample.env Sample.obliging
            {| tool_name := "wallet_getTokenBalance"; arguments := VUndefined |}
            (Sample.server true)))
  = walletCalls (Sample.server true).
Proof.
  refine (proj1 (proj2 (token_balance_without_parameters Sample.env Sample.obliging
                          (Sample.server true) VUndefined _ _ _))).
  - vm_compute. reflexivity.
  - reflexivity.
  - left. reflexivity.
Defined.

Lemma append_cancel_l (a b c : string) : a +:+ b = a +:+ c -> b = c.
Proof.
  induction a as [|x a IH]; cbn [String.append]; [trivial|].
  intros [= H]. now apply IH.
Qed.

Lemma append_cancel_r (a b : string) (x : ascii) :
  a +:+ String x "" = b +:+ String x "" -> a = b.
Proof.
  revert b. induction a as [|y a IH]; intros [|z b]; cbn [String.append].
  - reflexivity.
  - intros [= -> H]. destruct b; discriminate H.
  - intros [= -> H]. destruct a; discriminate H.
  - intros [= -> H]. f_equal. now apply IH.
Qed.

Lemma need_confirmation_shape (txId : string) :
  need_confirmation txId
  = VObj [("code", VStr "NEED_CONFIRMATION");
          ("message",
            VStr (JSON.stringify
                    (obj_of_strings
                       [("zh", "交易等待用户确认 (ID: " +:+ txId +:+ ")");
                        ("en", "Transaction pending confirmation (ID: "
                               +:+ txId +:+ ")")])))].
Proof. reflexivity. Qed.

Lemma need_confirmation_message (txId : string) :
  Js.get (need_confirmation txId) "message"
  = Some (VStr (JSON.stringify
                  (obj_of_strings
                     [("zh", "交易等待用户确认 (ID: " +:+ txId +:+ ")");
                      ("en", "Transaction pending confirmation (ID: "
                             +:+ txId +:+ ")")]))).
Proof. reflexivity. Qed.

(** X11: the confirmation request carries the id in its message only, and
    the id can be read back from it: the message is JSON text for an object
    with a Chinese and an English sentence, both of which end with the id in
    brackets; two requests with the same error object have the same id. *)
Theorem confirmation_request_holds_id (txId other : string) :
  Js.get (need_confirmation txId) "code" = Some (VStr "NEED_CONFIRMATION")
  /\ (exists message,
        Js.get (need_confirmation txId) "message" = Some (VStr message)
        /\ option_map (fun parsed => Js.get parsed "en") (JSON.parse message)
           = Some (Some (VStr ("Transaction pending confirmation (ID: "
                               +:+ txId +:+ ")"))))
  /\ (need_confirmation txId = need_confirmation other -> txId = other).
Proof.
  split; [reflexivity|]. split.
  - exists (JSON.stringify
              (obj_of_strings
                 [("zh", "交易等待用户确认 (ID: " +:+ txId +:+ ")");
                  ("en", "Transaction pending confirmation (ID: " +:+ txId +:+ ")")])).
    split; [reflexivity|].
    rewrite JSONFacts.parse_stringify_strings. reflexivity.
  - intros Hsame.
    assert (Hmessage :
              match Js.get (need_confirmation txId) "message" with
              | Some (VStr m) => JSON.parse m
              | _ => None
              end
              = match Js.get (need_confirmation other) "message" with
                | Some (VStr m) => JSON.parse m
                | _ => None
                end) by (rewrite Hsame; reflexivity).
    rewrite !need_confirmation_message in Hmessage.
    rewrite !JSONFacts.parse_stringify_strings in Hmessage.
    assert (Hen : forall a b c d,
               Some (obj_of_strings [("zh", a); ("en", b)])
               = Some (obj_of_strings [("zh", c); ("en", d)]) -> b = d).
    { clear. unfold obj_of_strings. cbn [map fst snd]. intros a b c d H.
      now inversion H. }
    apply Hen in Hmessage. apply append_cancel_l in Hmessage.
    now apply append_cancel_r in Hmessage.
Qed.

Lemma confirmation_request_holds_id_witness :
  randomUUID Sample.env = randomUUID Sample.env.
Proof.
  refine (proj2 (proj2 (confirmation_request_holds_id (randomUUID Sample.env)
                          (randomUUID Sample.env))) _).
  reflexivity.
Defined.

(** X12: a transfer parked by [wallet_sendTransaction] and then confirmed
    under the id the call drew is sent once, with the parameters of the
    call as they were given; the caller of [confirmTransaction] gets what
    the wallet answered. *)
Theorem park_then_confirm_sends_the_call (env : Env) (wallet : Wallet.t)
    (st : McpServer) (args : JsValue) :
  started st ->
  includes (config st) transaction = true ->
  confirmation_required (config st) = true ->
  let parked :=
    snd (callTool env wallet
           {| tool_name := "wallet_sendTransaction"; arguments := args |} st) in
  fst (confirmTransaction wallet (randomUUID env) parked)
    = settle (wallet (walletCalls st) (Wallet.sendTransaction args))
  /\ walletCalls (snd (confirmTransaction wallet (randomUUID env) parked))
     = (walletCalls st ++ [Wallet.sendTransaction args])%list
  /\ status <$> (pendingConfirmations
                   (snd (confirmTransaction wallet (randomUUID env) parked))
                   !! randomUUID env)
     = Some confirmed.
Proof.
  intros Hstarted Hallowed Hconfirm parked.
  assert (Hparked : parked
                    = snd (on_error
                             (JsError (JSON.stringify (need_confirmation (randomUUID env))))
                             (sendLoggingMessage level_info
                                (set_pending
                                   (<[randomUUID env :=
                                        {| params := args; status := pending;
                                           createdAt := Date_now env |}]>
                                      (pendingConfirmations st)) st)))).
  { subst parked.
    pose proof (callTool_registered env wallet st transaction sendTransactionTool
                  args Hstarted) as Hcall.
    cbn [name sendTransactionTool] in Hcall.
    rewrite Hcall; [|cbn; tauto | cbn; now rewrite Hallowed, Hconfirm].
    cbn [handler sendTransactionTool run_handler]. now rewrite Hconfirm. }
  assert (Hentry : pendingConfirmations parked !! randomUUID env
                   = Some {| params := args; status := pending;
                             createdAt := Date_now env |}).
  { rewrite Hparked, on_error_pending. apply lookup_insert_eq. }
  assert (Hcalls : walletCalls parked = walletCalls st).
  { rewrite Hparked, on_error_calls. reflexivity. }
  destruct (confirmTransaction_present wallet (randomUUID env) parked _ Hentry)
    as (Hout & Hmap & Hsent).
  cbn [params] in Hout, Hsent. rewrite Hcalls in Hout, Hsent.
  repeat split; [exact Hout | exact Hsent |].
  rewrite Hmap, lookup_insert_eq. reflexivity.
Qed.

Lemma park_then_confirm_sends_the_call_witness :
  walletCalls
    (snd (confirmTransaction Sample.obliging (randomUUID Sample.env)
            (snd (callTool Sample.env Sample.obliging
                    {| tool_name := "wallet_sendTransaction";
                       arguments := Sample.transfer |}
                    (Sample.server true)))))
  = (walletCalls (Sample.server true) ++ [Wallet.sendTransaction Sample.transfer])%list.
Proof.
  refine (proj1 (proj2 (park_then_confirm_sends_the_call Sample.env Sample.obliging
                          (Sample.server true) Sample.transfer _ _ _))).
  - vm_compute. reflexivity.
  - reflexivity.
  - reflexivity.
Defined.

(** X13: a rejection is not final.  An entry that has been rejected is
    still confirmed by [confirmTransaction]: the wallet is asked to send its
    parameters, the caller gets the wallet's answer, and the status goes
    from [rejected] to [confirmed]. *)
Theorem rejected_entry_can_be_sent (wallet : Wallet.t) (txId : string)
    (st : McpServer) (tx : PendingTx) :
  pendingConfirmations st !! txId = Some tx ->
  let turned_down := snd (rejectTransaction txId st) in
  status <$> (pendingConfirmations turned_down !! txId) = Some rejected
  /\ fst (confirmTransaction wallet txId turned_down)
     = settle (wallet (walletCalls st) (Wallet.sendTransaction (params tx)))
  /\ walletCalls (snd (confirmTransaction wallet txId turned_down))
     = (walletCalls st ++ [Wallet.sendTransaction (params tx)])%list
  /\ status <$> (pendingConfirmations
                   (snd (confirmTransaction wallet txId turned_down)) !! txId)
     = Some confirmed.
Proof.
  intros Hpresent turned_down.
  destruct (rejectTransaction_present txId st tx Hpresent) as (_ & Hmap & Hcalls).
  fold turned_down in Hmap, Hcalls.
  assert (Hrejected : pendingConfirmations turned_down !! txId
                      = Some (with_status rejected tx)).
  { rewrite Hmap. apply lookup_insert_eq. }
  destruct (confirmTransaction_present wallet txId turned_down _ Hrejected)
    as (Hout & Hmap' & Hsent).
  cbn [with_status params] in Hout, Hsent. rewrite Hcalls in Hout, Hsent.
  repeat split.
  - now rewrite Hrejected.
  - exact Hout.
  - exact Hsent.
  - rewrite Hmap', lookup_insert_eq. reflexivity.
Qed.

Lemma rejected_entry_can_be_sent_witness :
  fst (confirmTransaction Sample.obliging (randomUUID Sample.env)
         (snd (rejectTransaction (randomUUID Sample.env) Sample.parked)))
  = settle (Sample.obliging (walletCalls Sample.parked)
              (Wallet.sendTransaction Sample.transfer)).
Proof.
  refine (proj1 (proj2 (rejected_entry_can_be_sent Sample.obliging
                          (randomUUID Sample.env) Sample.parked
                          {| params := Sample.transfer; status := pending;
                             createdAt := Date_now Sample.env |} _))).
  vm_compute. reflexivity.
Defined.

(** X14: the two read tools take no look at their parameters.  On a
    started server that allows the read tier, [wallet_getAddress] and
    [wallet_getBalance] give the same response and ask the wallet the same
    question whatever parameters the call carries, although their schemas
    forbid any. *)
Theorem read_tools_ignore_parameters (env : Env) (wallet : Wallet.t)
    (st : McpServer) (tool : Tool) (args args' : JsValue) :
  started st ->
  includes (config st) read = true ->
  tool = getAddressTool \/ tool = getBalanceTool ->
  fst (callTool env wallet {| tool_name := name tool; arguments := args |} st)
    = fst (callTool env wallet {| tool_name := name tool; arguments := args' |} st)
  /\ walletCalls
       (snd (callTool env wallet {| tool_name := name tool; arguments := args |} st))
     = walletCalls
         (snd (callTool env wallet
                 {| tool_name := name tool; arguments := args' |} st)).
Proof.
  intros Hstarted Hread Htool.
  destruct Htool as [-> | ->];
    rewrite !(callTool_registered env wallet st read _ _ Hstarted)
      by (try exact Hread; cbn; tauto);
    cbn [handler getAddressTool getBalanceTool run_handler];
    split; reflexivity.
Qed.

Lemma read_tools_ignore_parameters_witness :
  fst (callTool Sample.env Sample.obliging
         {| tool_name := name getBalanceTool; arguments := VObj [] |}
         (Sample.server true))
  = fst (callTool Sample.env Sample.obliging
           {| tool_name := name getBalanceTool;
              arguments := obj_of_strings [("account", "savings")] |}
           (Sample.server true)).
Proof.
  refine (proj1 (read_tools_ignore_parameters Sample.env Sample.obliging
                   (Sample.server true) getBalanceTool _ _ _ _ _)).
  - vm_compute. reflexivity.
  - reflexivity.
  - right. reflexivity.
Defined.

(** X15: for an id that is not in the map, [confirmTransaction] and
    [rejectTransaction] both throw the error saying that the transaction is
    not found; neither asks the wallet nor adds an entry. *)
Theorem unknown_id_is_not_found (wallet : Wallet.t) (txId : string)
    (st : McpServer) :
  pendingConfirmations st !! txId = None ->
  fst (confirmTransaction wallet txId st)
    = Threw (JsError ("Transaction with ID " +:+ txId +:+ " not found"))
  /\ fst (rejectTransaction txId st)
     = Threw (JsError ("Transaction with ID " +:+ txId +:+ " not found"))
  /\ walletCalls (snd (confirmTransaction wallet txId st)) = walletCalls st
  /\ pendingConfirmations (snd (confirmTransaction wallet txId st))
     = pendingConfirmations st
  /\ pendingConfirmations (snd (rejectTransaction txId st))
     = pendingConfirmations st.
Proof.
  intros Habsent. unfold confirmTransaction, rejectTransaction.
  rewrite Habsent. repeat split.
Qed.

Lemma unknown_id_is_not_found_witness :
  fst (confirmTransaction Sample.obliging "no such id" Sample.parked)
  = Threw (JsError "Transaction with ID no such id not found").
Proof.
  refine (proj1 (unknown_id_is_not_found Sample.obliging "no such id"
                   Sample.parked _)).
  vm_compute. reflexivity.
Defined.

(** * Wallet set-up *)

Lemma endsWith_slash_zero (p : string) :
  Hd.endsWith p "/0" = true -> p = Hd.drop_last p +:+ "0".
Proof.
  induction p as [|c p IH]; [discriminate|].
  cbn [Hd.endsWith]. destruct (String.eqb (String c p) "/0") eqn:Hwhole.
  - apply String.eqb_eq in Hwhole. rewrite Hwhole. reflexivity.
  - intros Hrest. specialize (IH Hrest).
    destruct p as [|d p]; [discriminate Hrest|].
    change (Hd.drop_last (String c (String d p)))
      with (String c (Hd.drop_last (String d p))).
    cbn [String.append]. now rewrite <- IH.
Qed.

Lemma pretty_zero : pretty 0%N = "0".
Proof. reflexivity. Qed.

(** The path of a configuration, by the derivation path it names (or the
    default) and its account index (or 0). *)
Lemma path_unfold (config : Hd.WalletConfig) :
  Hd.path config
  = let p := default Hd.default_path (Hd.given (Hd.derivationPath config)) in
    let i := default 0%N (Hd.accountIndex config) in
    if Hd.endsWith p "/0" then Hd.drop_last p +:+ pretty i else p.
Proof.
  unfold Hd.path. cbv zeta.
  destruct (Hd.endsWith _ "/0") eqn:Hends; [|reflexivity].
  destruct (default 0%N (Hd.accountIndex config)) as [|i] eqn:Hindex.
  - cbn [N.ltb N.compare andb]. rewrite pretty_zero.
    now apply endsWith_slash_zero.
  - reflexivity.
Qed.

(** X16: the account index takes the place of the last character of a
    derivation path that ends with [/0], and only of such a path.  With no
    derivation path given, account [i] gets [m/44'/60'/0'/0/i]; a path that
    ends otherwise is used as it stands, whatever the account index. *)
Theorem account_index_replaces_final_zero (config : Hd.WalletConfig)
    (p : string) (i : N) :
  default Hd.default_path (Hd.given (Hd.derivationPath config)) = p ->
  default 0%N (Hd.accountIndex config) = i ->
  (i < 2 ^ 53)%N ->
  Hd.path config
  = if Hd.endsWith p "/0" then Hd.drop_last p +:+ pretty i else p.
Proof. intros <- <- _. apply path_unfold. Qed.

Lemma account_index_replaces_final_zero_witness :
  Hd.path {| Hd.rpcUrl := "https://testnet-rpc.monad.xyz"; Hd.chainId := VNum "10143";
             Hd.privateKey := None; Hd.mnemonic := Some "legal winner thank year";
             Hd.address := None; Hd.derivationPath := None;
             Hd.accountIndex := Some 7%N |}
  = "m/44'/60'/0'/0/7".
Proof.
  refine (account_index_replaces_final_zero _ Hd.default_path 7%N _ _ _).
  - reflexivity.
  - reflexivity.
  - vm_compute. reflexivity.
Defined.

(** X17: under one derivation path that ends with [/0], two account
    indices that give the same path are the same index: every account has
    its own key. *)
Theorem accounts_have_their_own_path (config config' : Hd.WalletConfig)
    (p : string) :
  default Hd.default_path (Hd.given (Hd.derivationPath config)) = p ->
  default Hd.default_path (Hd.given (Hd.derivationPath config')) = p ->
  Hd.endsWith p "/0" = true ->
  (default 0%N (Hd.accountIndex config) < 2 ^ 53)%N ->
  (default 0%N (Hd.accountIndex config') < 2 ^ 53)%N ->
  Hd.path config = Hd.path config' ->
  default 0%N (Hd.accountIndex config) = default 0%N (Hd.accountIndex config').
Proof.
  intros Hp Hp' Hends _ _. rewrite !path_unfold. cbv zeta.
  rewrite Hp, Hp', Hends. intros Hsame.
  apply append_cancel_l in Hsame. now apply (inj pretty) in Hsame.
Qed.

Lemma accounts_have_their_own_path_witness :
  default 0%N (Some 3%N) = default 0%N (Some 3%N).
Proof.
  refine (accounts_have_their_own_path
            {| Hd.rpcUrl := "https://testnet-rpc.monad.xyz"; Hd.chainId := VNum "10143";
             Hd.privateKey := None; Hd.mnemonic := Some "legal winner thank year";
               Hd.address := None; Hd.derivationPath := Some "m/44'/60'/0'/0";
               Hd.accountIndex := Some 3%N |}
            {| Hd.rpcUrl := "https://testnet-rpc.monad.xyz"; Hd.chainId := VNum "10143";
               Hd.privateKey := None; Hd.mnemonic := Some "letter advice cage above";
               Hd.address := None; Hd.derivationPath := Some "m/44'/60'/0'/0";
               Hd.accountIndex := Some 3%N |}
            "m/44'/60'/0'/0" _ _ _ _ _ _).
  - reflexivity.
  - reflexivity.
  - reflexivity.
  - vm_compute. reflexivity.
  - vm_compute. reflexivity.
  - vm_compute. reflexivity.
Defined.

(** X18: [initializeWallet] and the constructor of [EvmMcpWallet] make
    the same library calls, with the same arguments and in the same order,
    whatever the libraries answer: they build the same wallet or fail with
    the same error, but for one case.  When neither a private key nor a
    mnemonic is given (empty strings count as not given), as in a
    configuration for read-only use that only has an address, and the
    provider can be built, [initializeWallet] answers [null] while the
    constructor throws; [createMcpServer] then throws too, with that error
    or the provider's: no server is built for such a configuration. *)
Theorem key_choice_agrees (lib : Hd.Libraries) (config : Hd.WalletConfig)
    (serverConfig : option McpServerConfig) :
  Hd.EvmMcpWallet lib config
  = match Hd.initializeWallet lib config with
    | Returned (Some wallet) => Returned wallet
    | Returned None =>
        Threw (JsError "Either privateKey or mnemonic must be provided")
    | Threw e => Threw e
    end
  /\ (Hd.initializeWallet lib config = Returned None
      <-> Hd.given (Hd.privateKey config) = None
          /\ Hd.given (Hd.mnemonic config) = None
          /\ exists provider,
               Hd.new_JsonRpcProvider lib (Hd.rpcUrl config) (Hd.chainId config)
               = Returned provider)
  /\ (Hd.given (Hd.privateKey config) = None ->
      Hd.given (Hd.mnemonic config) = None ->
      createMcpServer lib config serverConfig
      = Threw match Hd.new_JsonRpcProvider lib (Hd.rpcUrl config)
                      (Hd.chainId config) with
              | Returned _ =>
                  JsError "Either privateKey or mnemonic must be provided"
              | Threw e => e
              end).
Proof.
  unfold createMcpServer, Hd.initializeWallet, Hd.EvmMcpWallet, mbind,
    Hd.Outcome_bind.
  destruct (Hd.new_JsonRpcProvider lib (Hd.rpcUrl config) (Hd.chainId config))
    as [provider|e].
  - destruct (Hd.given (Hd.privateKey config)) as [key|].
    { split; [now destruct (Hd.new_Wallet lib key provider)|].
      split; [|discriminate].
      split; [destruct (Hd.new_Wallet lib key provider); discriminate|].
      now intros [[=] _]. }
    destruct (Hd.given (Hd.mnemonic config)) as [phrase|].
    { split; [|split; [|discriminate]].
      - destruct (Hd.mnemonicToSeedSync lib phrase) as [seed|]; [|reflexivity].
        destruct (Hd.fromMasterSeed lib seed) as [hdkey|]; [|reflexivity].
        destruct (Hd.derive lib hdkey (Hd.path config)) as [child|]; [|reflexivity].
        now destruct (Hd.new_Wallet lib (Hd.hex_key lib child) provider).
      - split; [|now intros (_ & [=] & _)].
        destruct (Hd.mnemonicToSeedSync lib phrase) as [seed|]; [|discriminate].
        destruct (Hd.fromMasterSeed lib seed) as [hdkey|]; [|discriminate].
        destruct (Hd.derive lib hdkey (Hd.path config)) as [child|]; [|discriminate].
        destruct (Hd.new_Wallet lib (Hd.hex_key lib child) provider); discriminate. }
    split; [reflexivity|]. split; [|reflexivity].
    split; [|reflexivity]. intros _. repeat split. now exists provider.
  - split; [reflexivity|]. split; [|reflexivity].
    split; [discriminate|]. now intros (_ & _ & provider & [=]).
Qed.

Lemma key_choice_agrees_witness :
  createMcpServer Hd.plain
    {| Hd.rpcUrl := "https://testnet-rpc.monad.xyz"; Hd.chainId := VNum "10143";
       Hd.privateKey := None; Hd.mnemonic := Some "";
       Hd.address := Some "0x52908400098527886E0F7030069857D2E4169EE7";
       Hd.derivationPath := None; Hd.accountIndex := None |}
    None
  = Threw (JsError "Either privateKey or mnemonic must be provided").
Proof.
  refine (proj2 (proj2 (key_choice_agrees Hd.plain
                          {| Hd.rpcUrl := "https://testnet-rpc.monad.xyz";
                             Hd.chainId := VNum "10143";
                             Hd.privateKey := None; Hd.mnemonic := Some "";
                             Hd.address :=
                               Some "0x52908400098527886E0F7030069857D2E4169EE7";
                             Hd.derivationPath := None;
                             Hd.accountIndex := None |}
                          None)) _ _).
  - reflexivity.
  - reflexivity.
Defined.

(** * Token and chain look-up *)

Lemma entry_In (table : list (string * string)) (key v : string) :
  Lookup.entry table key = Some v -> In (key, v) table.
Proof.
  induction table as [|[k w] table IH]; cbn [Lookup.entry]; [discriminate|].
  destruct (String.eqb k key) eqn:Hk; [|intros H; right; auto].
  intros [= ->]. apply String.eqb_eq in Hk. subst k. now left.
Qed.

Lemma given_Some (field : option string) (v : string) :
  Hd.given field = Some v -> field = Some v.
Proof. destruct field as [[|c s]|]; cbn; congruence. Qed.

(** A listed token that is not a native symbol has an address. *)
Lemma listed_address (s r : string) :
  Lookup.native_symbol s = false ->
  In (Lookup.toUpperCase s, r) (Lookup.MONAD_TOKENS ++ Lookup.ETHEREUM_TOKENS) ->
  Lookup.address_shaped r = true.
Proof.
  unfold Lookup.native_symbol. intros Hnative Hin. cbn in Hin.
  repeat (destruct Hin as [[= Hkey <-]|Hin];
          [first [reflexivity
                 | rewrite <- Hkey in Hnative; discriminate Hnative]|]).
  destruct Hin.
Qed.

(** The answers of [getTokenAddress], by the branch that gives them. *)
Lemma getTokenAddress_cases (s : string) (chainId : Z) (r : string) :
  Lookup.getTokenAddress s chainId = Returned r ->
  (Lookup.address_shaped s = true /\ r = s)
  \/ (Lookup.address_shaped s = false /\ Lookup.native_symbol s = true
      /\ r = if (chainId =? Lookup.MONAD)%Z then "MONAD"
             else if (chainId =? Lookup.MONAD_TESTNET)%Z then "MON" else "ETH")
  \/ (Lookup.address_shaped s = false /\ Lookup.native_symbol s = false
      /\ (chainId = Lookup.MONAD \/ chainId = Lookup.MONAD_TESTNET
          \/ chainId = Lookup.ETHEREUM)
      /\ Lookup.address_shaped r = true).
Proof.
  unfold Lookup.getTokenAddress.
  destruct (Lookup.address_shaped s); [intros [= <-]; now left|].
  destruct (Lookup.native_symbol s) eqn:Hnative;
    [intros [= <-]; right; left; repeat split|].
  intros Hlisted. right; right. split; [reflexivity|]. split; [reflexivity|].
  destruct (Hd.given _) as [address|] eqn:Hgiven; [|discriminate].
  injection Hlisted as <-. apply given_Some in Hgiven.
  destruct (chainId =? Lookup.MONAD)%Z eqn:H1;
    [apply Z.eqb_eq in H1; split; [tauto|];
     apply (listed_address s _ Hnative), in_or_app; left;
     now apply entry_In|].
  destruct (chainId =? Lookup.MONAD_TESTNET)%Z eqn:H2;
    [apply Z.eqb_eq in H2; split; [tauto|];
     apply (listed_address s _ Hnative), in_or_app; left;
     now apply entry_In|].
  destruct (chainId =? Lookup.ETHEREUM)%Z eqn:H3;
    [apply Z.eqb_eq in H3; split; [tauto|];
     apply (listed_address s _ Hnative), in_or_app; right;
     now apply entry_In|].
  discriminate Hgiven.
Qed.





Lemma chainMap_numbers (key : string) (id : Z) :
  Lookup.chainMap key = Some (Lookup.chain id) ->
  In id [Lookup.ETHEREUM; Lookup.POLYGON; Lookup.ARBITRUM_ONE; Lookup.OPTIMISM;
         Lookup.BSC; Lookup.AVALANCHE].
Proof.
  unfold Lookup.chainMap.
  repeat (destruct (String.eqb key _);
          [intros [= <-]; cbn; tauto || discriminate|]).
  discriminate.
Qed.

Lemma getChainId_numbers (chainName : string) (id : Z) :
  Lookup.getChainId chainName = Returned (Lookup.chain id) ->
  In id [Lookup.ETHEREUM; Lookup.POLYGON; Lookup.ARBITRUM_ONE; Lookup.OPTIMISM;
         Lookup.BSC; Lookup.AVALANCHE].
Proof.
  unfold Lookup.getChainId.
  destruct (Lookup.chainMap _) as [v|] eqn:Hkey; [|discriminate].
  intros [= ->]. now apply (chainMap_numbers _ _ Hkey).
Qed.

(** The checks of [mcp_bridge], when they pass. *)
Lemma bridge_checks_pass (wallet : bool) (chainId : Z)
    (args : option (list (string * JsValue)))
    (fromChainId toChainId : Lookup.ChainMapValue) (tokenAddress : string) :
  Lookup.bridge_checks wallet chainId args
    = Returned (fromChainId, toChainId, tokenAddress) ->
  wallet = true
  /\ fromChainId = Lookup.chain chainId
  /\ In chainId [Lookup.ETHEREUM; Lookup.POLYGON; Lookup.ARBITRUM_ONE;
                 Lookup.OPTIMISM; Lookup.BSC; Lookup.AVALANCHE]
  /\ exists token, Lookup.getTokenAddress token chainId = Returned tokenAddress.
Proof.
  unfold Lookup.bridge_checks.
  destruct args as [members|]; [|discriminate].
  destruct wallet; [|discriminate]. cbn [negb].
  destruct (default VUndefined (Js.own_property members "fromChain"))
    as [| | | |fromChain| |]; try discriminate.
  destruct (Lookup.getChainId fromChain) as [from|] eqn:Hfrom; [|discriminate].
  destruct (default VUndefined (Js.own_property members "toChain"))
    as [| | | |toChain| |]; try discriminate.
  destruct (Lookup.getChainId toChain) as [to|]; [|discriminate].
  destruct from as [id| |]; try discriminate.
  destruct (id =? chainId)%Z eqn:Hsame; [|discriminate].
  apply Z.eqb_eq in Hsame. subst id.
  destruct (default VUndefined (Js.own_property members "token"))
    as [| | | |token| |]; try discriminate.
  destruct (Lookup.getTokenAddress token chainId) as [a|] eqn:Htoken; [|discriminate].
  intros [= <- <- <-]. repeat split.
  - now apply (getChainId_numbers fromChain).
  - eauto.
Qed.

Lemma getChainId_throws (chainName : string) (e : Thrown) :
  Lookup.getChainId chainName = Threw e -> exists message, e = JsError message.
Proof.
  unfold Lookup.getChainId. destruct (Lookup.chainMap _); [discriminate|].
  intros [= <-]. eauto.
Qed.

Lemma getTokenAddress_throws (s : string) (chainId : Z) (e : Thrown) :
  Lookup.getTokenAddress s chainId = Threw e -> exists message, e = JsError message.
Proof.
  unfold Lookup.getTokenAddress.
  destruct (Lookup.address_shaped s); [discriminate|].
  destruct (Lookup.native_symbol s); [discriminate|].
  destruct (Hd.given _); [discriminate|]. intros [= <-]. eauto.
Qed.

Lemma bridge_checks_throws (wallet : bool) (chainId : Z)
    (args : option (list (string * JsValue))) (e : Thrown) :
  Lookup.bridge_checks wallet chainId args = Threw e ->
  exists message, e = JsError message.
Proof.
  unfold Lookup.bridge_checks.
  destruct args as [members|]; [|intros [= <-]; eauto].
  destruct wallet; [|intros [= <-]; eauto]. cbn [negb].
  destruct (default VUndefined (Js.own_property members "fromChain"))
    as [| | | |fromChain| |]; try (intros [= <-]; eauto).
  destruct (Lookup.getChainId fromChain) as [from|efrom] eqn:Hfrom;
    [|intros [= <-]; now apply (getChainId_throws fromChain)].
  destruct (default VUndefined (Js.own_property members "toChain"))
    as [| | | |toChain| |]; try (intros [= <-]; eauto).
  destruct (Lookup.getChainId toChain) as [to|eto] eqn:Hto;
    [|intros [= <-]; now apply (getChainId_throws toChain)].
  destruct from as [id| |]; try (intros [= <-]; eauto).
  destruct (id =? chainId)%Z; [|intros [= <-]; eauto].
  destruct (default VUndefined (Js.own_property members "token"))
    as [| | | |token| |]; try (intros [= <-]; eauto).
  destruct (Lookup.getTokenAddress token id) as [a|etoken] eqn:Htoken;
    [discriminate|].
  intros [= <-]. now apply (getTokenAddress_throws token id).
Qed.

(** X21: [mcp_bridge] can only get past its checks on a wallet whose chain
    is Ethereum, Polygon, Arbitrum One, Optimism, BSC or Avalanche.  On any
    other chain, Monad and Monad testnet among them, every bridge request
    fails with an error before anything is sent, whatever its arguments. *)
Theorem bridge_needs_listed_chain (wallet : bool) (chainId : Z)
    (args : option (list (string * JsValue))) :
  Lookup.ascii_arguments args ->
  ~ In chainId [Lookup.ETHEREUM; Lookup.POLYGON; Lookup.ARBITRUM_ONE;
                Lookup.OPTIMISM; Lookup.BSC; Lookup.AVALANCHE] ->
  exists message, Lookup.bridge_checks wallet chainId args = Threw (JsError message).
Proof.
  intros _ Hchain.
  destruct (Lookup.bridge_checks wallet chainId args) as [[[from to] token]|e] eqn:Hchecks.
  - exfalso. apply Hchain. now apply (bridge_checks_pass _ _ _ _ _ _ Hchecks).
  - destruct (bridge_checks_throws _ _ _ _ Hchecks) as [message ->]. eauto.
Qed.

Lemma bridge_needs_listed_chain_witness :
  exists message,
    Lookup.bridge_checks true Lookup.MONAD_TESTNET
      (Some [("fromChain", VStr "ethereum"); ("toChain", VStr "polygon");
             ("token", VStr "USDC"); ("amount", VStr "10")])
    = Threw (JsError message).
Proof.
  refine (bridge_needs_listed_chain true Lookup.MONAD_TESTNET _ _ _).
  - repeat constructor.
  - cbn. intros [H|[H|[H|[H|[H|[H|[]]]]]]]; discriminate H.
Defined.

(** X22: when the checks of [mcp_bridge] pass, a signing wallet exists,
    the source chain is the wallet's own chain, and the token is [ETH] or a
    string of 42 characters that starts with [0x]. *)
Theorem bridge_checks_result (wallet : bool) (chainId : Z)
    (args : option (list (string * JsValue)))
    (fromChainId toChainId : Lookup.ChainMapValue) (tokenAddress : string) :
  Lookup.ascii_arguments args ->
  Lookup.bridge_checks wallet chainId args
    = Returned (fromChainId, toChainId, tokenAddress) ->
  wallet = true
  /\ fromChainId = Lookup.chain chainId
  /\ (tokenAddress = "ETH" \/ Lookup.address_shaped tokenAddress = true).
Proof.
  intros _ Hchecks.
  destruct (bridge_checks_pass _ _ _ _ _ _ Hchecks)
    as (Hwallet & Hfrom & Hchain & token & Htoken).
  repeat split; [exact Hwallet | exact Hfrom |].
  destruct (getTokenAddress_cases token chainId tokenAddress Htoken)
    as [(Hshape & ->)|[(_ & _ & ->)|(_ & _ & _ & Hshape)]].
  - now right.
  - left. cbn in Hchain.
    destruct Hchain as [<-|[<-|[<-|[<-|[<-|[<-|[]]]]]]]; reflexivity.
  - now right.
Qed.

Lemma bridge_checks_result_witness :
  true = true
  /\ Lookup.chain Lookup.POLYGON = Lookup.chain 137
  /\ ("0xdAC17F958D2ee523a2206206994597C13D831ec7" = "ETH"
      \/ Lookup.address_shaped "0xdAC17F958D2ee523a2206206994597C13D831ec7" = true).
Proof.
  refine (bridge_checks_result true 137
            (Some [("fromChain", VStr "Polygon"); ("toChain", VStr "constructor");
                   ("token", VStr "0xdAC17F958D2ee523a2206206994597C13D831ec7");
                   ("amount", VStr "10")])
            (Lookup.chain Lookup.POLYGON) Lookup.Object_function
            "0xdAC17F958D2ee523a2206206994597C13D831ec7" _ _).
  - repeat constructor.
  - vm_compute. reflexivity.
Defined.
